(** * mcp-toolkit: the tool registry, schema inference and JSON-RPC dispatcher

    A shallow embedding of [mcp/core.py] (class [MCP]) and the properties
    of its dispatcher [MCP.run], its registration decorator [MCP.add] and
    its response builders.

    Layout: Python values, exceptions, the interpreter services the
    source relies on, schema inference, callables and keyword binding,
    the registry and server state, the response builders, [initialize]
    and [run]; then the theorems. *)

From Stdlib Require Import String Ascii List ZArith Bool Lia DecimalString.
Import ListNotations.
Open Scope list_scope.
Open Scope string_scope.
Set Warnings "-register-all".

(** ** Python values *)

(** The values that travel through the dispatcher: what [json.loads]
    produces, what a caller passes as an already-parsed request, what a
    tool returns and what [run] answers.  Dictionaries keep insertion
    order and are keyed by strings (the keys of a JSON object); a list of
    entries stands for a dict whose keys are pairwise distinct.  A float
    is carried by its [repr] text, the only thing the dispatcher ever
    does with one besides testing it against zero.  [PObj] is any other
    object (a set, bytes, an instance of a user class): it has a display
    text and a truth value and is not JSON serialisable. *)
Inductive pyval : Type :=
| PNone
| PBool (b : bool)
| PInt (n : Z)
| PFloat (repr : string)
| PStr (s : string)
| PList (items : list pyval)
| PDict (entries : list (string * pyval))
| PObj (repr : string) (truth : bool).

Definition pydict := list (string * pyval).

(** [bool(v)], as used by [if not method], [if not tool_name], [if data],
    [if params]. *)
Definition truthy (v : pyval) : bool :=
  match v with
  | PNone => false
  | PBool b => b
  | PInt n => negb (n =? 0)%Z
  | PFloat r => negb ((r =? "0.0") || (r =? "-0.0"))
  | PStr s => negb (s =? "")
  | PList items => match items with [] => false | _ => true end
  | PDict entries => match entries with [] => false | _ => true end
  | PObj _ t => t
  end.

(** [v is None]. *)
Definition is_none (v : pyval) : bool :=
  match v with PNone => true | _ => false end.

(** [v == s] for a string literal [s]. *)
Definition eq_str (v : pyval) (s : string) : bool :=
  match v with PStr s' => s' =? s | _ => false end.

(** Dictionary operations: [k in d], [d.get(k)], [d.get(k, default)] and
    [d[k] = v] (an existing key keeps its position, a new key goes last). *)
Fixpoint dict_lookup (k : string) (d : pydict) : option pyval :=
  match d with
  | [] => None
  | (k', v) :: rest => if k' =? k then Some v else dict_lookup k rest
  end.

Definition dict_get (k : string) (default : pyval) (d : pydict) : pyval :=
  match dict_lookup k d with
  | Some v => v
  | None => default
  end.

Definition dict_has (k : string) (d : pydict) : bool :=
  match dict_lookup k d with Some _ => true | None => false end.

Fixpoint assoc_set {A : Type} (k : string) (v : A) (d : list (string * A))
  : list (string * A) :=
  match d with
  | [] => [(k, v)]
  | (k', v') :: rest =>
      if k' =? k then (k, v) :: rest else (k', v') :: assoc_set k v rest
  end.

Fixpoint assoc_get {A : Type} (k : string) (d : list (string * A)) : option A :=
  match d with
  | [] => None
  | (k', v) :: rest => if k' =? k then Some v else assoc_get k rest
  end.

(** [json.dumps(v)] succeeds exactly on the values built without [PObj]. *)
Fixpoint serializable (v : pyval) : bool :=
  match v with
  | PList items => forallb serializable items
  | PDict entries =>
      (fix entries_ok (d : pydict) : bool :=
         match d with
         | [] => true
         | (_, x) :: rest => serializable x && entries_ok rest
         end) entries
  | PObj _ _ => false
  | _ => true
  end.

(** The name of a value's class, as interpreter messages print it. *)
Definition type_name (v : pyval) : string :=
  match v with
  | PNone => "NoneType"
  | PBool _ => "bool"
  | PInt _ => "int"
  | PFloat _ => "float"
  | PStr _ => "str"
  | PList _ => "list"
  | PDict _ => "dict"
  | PObj _ _ => "object"
  end.

(** ** Exceptions *)

(** The handlers of [run] tell two classes apart: [json.JSONDecodeError]
    and every other subclass of [Exception].  [exn_msg] is [str(e)]. *)
Inductive exn_class : Type :=
| JSONDecodeError
| OtherException (name : string).

Record exn : Type := mk_exn { exn_cls : exn_class; exn_msg : string }.

Inductive outcome (A : Type) : Type :=
| Ret (a : A)
| Raise (e : exn).
Arguments Ret {A} a.
Arguments Raise {A} e.

Definition bind {A B : Type} (c : outcome A) (k : A -> outcome B) : outcome B :=
  match c with
  | Ret a => k a
  | Raise e => Raise e
  end.

Notation "x <- c ;; k" := (bind c (fun x => k))
  (at level 61, c at next level, right associativity).
Notation "c ;;; k" := (bind c (fun _ => k))
  (at level 61, right associativity).

(** ** Interpreter services *)

(** The places where the interpreter itself raises on behalf of [run]. *)
Inductive interp_error : Type :=
| NoAttributeGet (v : pyval)       (* [v.get] on a value that is no dict *)
| Unhashable (v : pyval)           (* [self.tools.get v] *)
| NotAContainer (v : pyval)        (* [p in v] *)
| NotAMapping (fname : string) (v : pyval)
                                   (* keyword unpacking of a non-dict *)
| UnexpectedKeyword (fname : string) (key : string)
                                   (* a keyword that binds no parameter *)
| MissingArguments (fname : string) (names : list string)
                                   (* parameters left without a value *)
| NotSerializable (v : pyval)      (* [json.dumps v] *)
| UnhashableAnnotation.            (* [annotation in type_mapping] *)

(** What the source takes from the Python runtime and does not define:
    the JSON parser ([None] stands for [JSONDecodeError]), [repr] on
    strings (quoting and escaping, used by [str] on containers), the
    message of a parse error and the messages of interpreter errors. *)
Record interpreter : Type := {
  json_loads : string -> option pyval;
  json_error_text : string -> string;
  repr_str : string -> string;
  error_text : interp_error -> string
}.

Definition interp_class (e : interp_error) : string :=
  match e with
  | NoAttributeGet _ => "AttributeError"
  | _ => "TypeError"
  end.

Definition interp_raise {A : Type} (I : interpreter) (e : interp_error)
  : outcome A :=
  Raise (mk_exn (OtherException (interp_class e)) (error_text I e)).

(** [json.dumps(v)] inside a log message: the text is discarded, only a
    failure is visible.  The f-strings of the source are evaluated whether
    or not logging is enabled. *)
Definition json_dumps (I : interpreter) (v : pyval) : outcome unit :=
  if serializable v then Ret tt else interp_raise I (NotSerializable v).

(** ** Text helpers *)

(** Texts are byte strings.  [lower] is [str.lower] on ASCII text: the
    letters A-Z are lowered and every other byte is left as it is.  No
    character outside ASCII lowers to a letter of the tokens tested by
    the inference, so the inference is the same on every text; the
    docstring scan is the code's on ASCII docstrings, and the statements
    about it carry that hypothesis ([ascii_text]). *)
Definition lower_ascii (c : ascii) : ascii :=
  let n := nat_of_ascii c in
  if ((65 <=? n) && (n <=? 90))%nat then ascii_of_nat (n + 32) else c.

Fixpoint lower (s : string) : string :=
  match s with
  | EmptyString => EmptyString
  | String c rest => String (lower_ascii c) (lower rest)
  end.

(** [needle in hay] on strings. *)
Fixpoint contains (needle hay : string) : bool :=
  prefix needle hay ||
  match hay with
  | EmptyString => false
  | String _ rest => contains needle rest
  end.

(** The ASCII characters [str.strip] removes; [strip] is [str.strip] on
    ASCII text (the whitespace outside ASCII, such as U+00A0, is not
    known to it). *)
Definition is_space (c : ascii) : bool :=
  let n := nat_of_ascii c in
  ((n =? 32) || ((9 <=? n) && (n <=? 13)) || ((28 <=? n) && (n <=? 31)))%nat.

Fixpoint lstrip (s : string) : string :=
  match s with
  | EmptyString => EmptyString
  | String c rest => if is_space c then lstrip rest else s
  end.

Fixpoint rstrip (s : string) : string :=
  match s with
  | EmptyString => EmptyString
  | String c rest =>
      match rstrip rest with
      | EmptyString => if is_space c then EmptyString else String c EmptyString
      | kept => String c kept
      end
  end.

Definition strip (s : string) : string := rstrip (lstrip s).

(** [s.split('\n')]. *)
Fixpoint split_lines (s : string) : list string :=
  match s with
  | EmptyString => [EmptyString]
  | String c rest =>
      if (nat_of_ascii c =? 10)%nat then EmptyString :: split_lines rest
      else match split_lines rest with
           | [] => [String c EmptyString]
           | l :: ls => String c l :: ls
           end
  end.

(** [s.split(':', 1)[1]] when [s] has a colon. *)
Fixpoint after_colon (s : string) : option string :=
  match s with
  | EmptyString => None
  | String c rest => if (c =? ":")%char then Some rest else after_colon rest
  end.

(** [str(n)] for an integer. *)
Definition str_of_Z (n : Z) : string := NilZero.string_of_int (Z.to_int n).

(** [', '.join(l)] and friends. *)
Definition join (sep : string) (l : list string) : string := String.concat sep l.

(** ** Schema inference *)

(** Classes that can stand as an annotation or as the [__origin__] of a
    generic alias: the six keys of [type_mapping] and any other class or
    special form ([typing.Union], a user class). *)
Inductive pytype : Type :=
| Tstr | Tint | Tfloat | Tbool | Tlist | Tdict
| Tother (name : string).

(** [param.annotation].  [AnnObject] is any object that is neither a
    class nor a string nor [None]: a generic alias such as [List[int]]
    (hashable, with an [__origin__]), or whatever expression the author
    wrote after the colon, e.g. the list display [[int]] (not hashable). *)
Inductive annotation : Type :=
| AnnEmpty                       (* inspect.Parameter.empty *)
| AnnNone
| AnnType (t : pytype)
| AnnStr (s : string)
| AnnObject (hashable : bool) (origin : option pytype).

(** The [type_mapping] dict of [_infer_param_type_from_annotation]. *)
Definition type_mapping (t : pytype) : option string :=
  match t with
  | Tstr => Some "string"
  | Tint => Some "integer"
  | Tfloat => Some "number"
  | Tbool => Some "boolean"
  | Tlist => Some "array"
  | Tdict => Some "object"
  | Tother _ => None
  end.

(** The branch for textual annotations: [None] when no token occurs. *)
Definition infer_from_text (s : string) : option string :=
  let lower_annotation := lower s in
  if contains "int" lower_annotation then Some "integer"
  else if contains "float" lower_annotation || contains "number" lower_annotation
       then Some "number"
  else if contains "bool" lower_annotation then Some "boolean"
  else if contains "list" lower_annotation || contains "array" lower_annotation
       then Some "array"
  else if contains "dict" lower_annotation || contains "object" lower_annotation
       then Some "object"
  else None.

Definition _infer_param_type_from_annotation (I : interpreter)
  (ann : annotation) : outcome string :=
  match ann with
  | AnnEmpty | AnnNone => Ret "string"
  | AnnType t =>
      (* [annotation in type_mapping]; a class has no [__origin__] *)
      match type_mapping t with
      | Some ty => Ret ty
      | None => Ret "string"
      end
  | AnnObject false _ =>
      (* [annotation in type_mapping] hashes the annotation *)
      interp_raise I UnhashableAnnotation
  | AnnObject true (Some origin) =>
      match type_mapping origin with
      | Some ty => Ret ty
      | None => Ret "string"
      end
  | AnnObject true None => Ret "string"
  | AnnStr s =>
      match infer_from_text s with
      | Some ty => Ret ty
      | None => Ret "string"
      end
  end.

Definition schema_types : list string :=
  ["string"; "integer"; "number"; "boolean"; "array"; "object"].

(** ** Callables and keyword binding *)

(** [inspect.Parameter.kind]. *)
Inductive param_kind : Type :=
| POSITIONAL_ONLY
| POSITIONAL_OR_KEYWORD
| VAR_POSITIONAL
| KEYWORD_ONLY
| VAR_KEYWORD.

Record parameter : Type := {
  p_name : string;
  p_kind : param_kind;
  p_default : option pyval;     (* [None] is [inspect.Parameter.empty] *)
  p_annotation : annotation
}.

(** A function object: [__name__], [__doc__], the parameters of
    [inspect.signature] in declared order, and the body.  The body gets
    the server's [initialized] flag as it stands when the call is made (a
    tool is a closure of the host program and can read the server) and
    the bound arguments by name.  The body returns or raises and leaves
    the server object alone, as every tool of the repository, its tests
    and its examples does; what [run] leaves of the server is therefore
    stated for such tools only, and nothing is claimed about a tool that
    writes [initialized], [tools] or the names itself. *)
Record pyfunc : Type := {
  f_name : string;
  f_doc : option string;
  f_params : list parameter;
  f_body : bool -> pydict -> outcome pyval
}.

Definition accepts_keyword (p : parameter) : bool :=
  match p_kind p with
  | POSITIONAL_OR_KEYWORD | KEYWORD_ONLY => true
  | _ => false
  end.

Definition is_var_keyword (p : parameter) : bool :=
  match p_kind p with VAR_KEYWORD => true | _ => false end.

Definition mem_str (k : string) (l : list string) : bool :=
  existsb (String.eqb k) l.

Definition keyword_names (params : list parameter) : list string :=
  map p_name (filter accepts_keyword params).

(** The keywords that name no parameter a keyword can bind. *)
Definition extra_keywords (params : list parameter) (kwargs : pydict) : pydict :=
  filter (fun kv => negb (mem_str (fst kv) (keyword_names params))) kwargs.

(** The value of every parameter after a call that passes keywords only:
    a keyword-capable parameter takes its keyword or else its default, a
    positional-only one its default, the catch-all dict the extra
    keywords; the catch-all tuple is empty and is not handed on.  [None]
    when a parameter is left without a value. *)
Fixpoint bind_params (all params : list parameter) (kwargs : pydict)
  : option pydict :=
  match params with
  | [] => Some []
  | p :: rest =>
      match p_kind p with
      | VAR_POSITIONAL => bind_params all rest kwargs
      | VAR_KEYWORD =>
          option_map (cons (p_name p, PDict (extra_keywords all kwargs)))
                     (bind_params all rest kwargs)
      | POSITIONAL_ONLY =>
          match p_default p with
          | Some d => option_map (cons (p_name p, d)) (bind_params all rest kwargs)
          | None => None
          end
      | POSITIONAL_OR_KEYWORD | KEYWORD_ONLY =>
          match dict_lookup (p_name p) kwargs, p_default p with
          | Some v, _ => option_map (cons (p_name p, v)) (bind_params all rest kwargs)
          | None, Some d => option_map (cons (p_name p, d)) (bind_params all rest kwargs)
          | None, None => None
          end
      end
  end.

(** The parameters [bind_params] finds without a value. *)
Definition lacks_value (kwargs : pydict) (p : parameter) : bool :=
  match p_kind p, p_default p with
  | VAR_POSITIONAL, _ | VAR_KEYWORD, _ => false
  | _, Some _ => false
  | POSITIONAL_ONLY, None => true
  | _, None => negb (dict_has (p_name p) kwargs)
  end.

(** The call with keyword unpacking of a dict: the first keyword that
    binds nothing is a [TypeError] unless the function has a catch-all
    dict, and so is a parameter left without a value. *)
Definition call_kw (I : interpreter) (f : pyfunc) (flag : bool) (kwargs : pydict)
  : outcome pyval :=
  let params := f_params f in
  match extra_keywords params kwargs, existsb is_var_keyword params with
  | (k, _) :: _, false => interp_raise I (UnexpectedKeyword (f_name f) k)
  | _, _ =>
      match bind_params params params kwargs with
      | Some env => f_body f flag env
      | None =>
          interp_raise I
            (MissingArguments (f_name f)
               (map p_name (filter (lacks_value kwargs) params)))
      end
  end.

(** The same call on whatever value the request supplied as arguments. *)
Definition call_with (I : interpreter) (f : pyfunc) (flag : bool) (args : pyval)
  : outcome pyval :=
  match args with
  | PDict d => call_kw I f flag d
  | _ => interp_raise I (NotAMapping (f_name f) args)
  end.

(** ** Registry and server state *)

(** The dict built by [MCP.add] and stored by [register_tool]. *)
Record tool_info : Type := {
  title : pyval;
  description : pyval;
  function : pyfunc;
  required_params : list string;
  properties : pydict
}.

(** The fields of an [MCP] instance that the dispatcher reads or writes;
    [tools] is a dict: insertion-ordered, one entry per name. *)
Record server : Type := {
  tools : list (string * tool_info);
  initialized : bool;
  server_name : string;
  server_version : string
}.

(** [MCP.__init__]. *)
Definition new_server (name version : string) : server :=
  {| tools := []; initialized := false;
     server_name := name; server_version := version |}.

Definition set_tools (st : server) (t : list (string * tool_info)) : server :=
  {| tools := t; initialized := initialized st;
     server_name := server_name st; server_version := server_version st |}.

Definition set_initialized (st : server) (b : bool) : server :=
  {| tools := tools st; initialized := b;
     server_name := server_name st; server_version := server_version st |}.

Definition register_tool (tool_name : string) (info : tool_info) (st : server)
  : server :=
  set_tools st (assoc_set tool_name info (tools st)).

Definition list_tools (st : server) : list string := map fst (tools st).

(** The description of parameter [name] found in the docstring lines. *)
Fixpoint scan_doc (name default : string) (doc_lines : list string) : string :=
  match doc_lines with
  | [] => default
  | l :: rest =>
      let line := strip l in
      if prefix (name ++ ":") line || prefix ("- " ++ name ++ ":") line then
        match after_colon line with
        | Some text => strip text
        | None => default
        end
      else if contains ("param " ++ name) (lower line)
              || contains ("parameter " ++ name) (lower line) then
        match after_colon line with
        | Some text => strip text
        | None => default
        end
      else scan_doc name default rest
  end.

Definition param_description (func : pyfunc) (name : string) : string :=
  let default := "Parameter " ++ name in
  match f_doc func with
  | Some doc =>
      if doc =? "" then default
      else scan_doc name default (split_lines (strip doc))
  | None => default
  end.

(** The [for name, param in sig.parameters.items()] loop of [add], with
    its two accumulators. *)
Fixpoint add_loop (I : interpreter) (func : pyfunc) (params : list parameter)
  (required : list string) (props : pydict) : outcome (list string * pydict) :=
  match params with
  | [] => Ret (required, props)
  | p :: rest =>
      let name := p_name p in
      let required' :=
        match p_default p with
        | None => (required ++ [name])%list
        | Some _ => required
        end in
      param_type <- _infer_param_type_from_annotation I (p_annotation p) ;;
      add_loop I func rest required'
        (assoc_set name
           (PDict [("type", PStr param_type);
                   ("description", PStr (param_description func name))])
           props)
  end.

Definition build_tool_info (tool_info_dict : pydict) (func : pyfunc)
  (required : list string) (props : pydict) : tool_info :=
  {| title := dict_get "Title" PNone tool_info_dict;
     description := dict_get "Description" PNone tool_info_dict;
     function := func;
     required_params := required;
     properties := props |}.

(** [MCP.add(tool_info_dict)(func)]: the effect of the decorator on the
    server. *)
Definition add (I : interpreter) (tool_info_dict : pydict) (func : pyfunc)
  (st : server) : outcome server :=
  rp <- add_loop I func (f_params func) [] [] ;;
  Ret (register_tool (f_name func)
         (build_tool_info tool_info_dict func (fst rp) (snd rp)) st).

(** ** Display text *)

(** [repr(v)] and [str(v)]: they differ on strings only. *)
Fixpoint py_repr (I : interpreter) (v : pyval) : string :=
  match v with
  | PNone => "None"
  | PBool true => "True"
  | PBool false => "False"
  | PInt n => str_of_Z n
  | PFloat r => r
  | PStr s => repr_str I s
  | PList items => "[" ++ join ", " (map (py_repr I) items) ++ "]"
  | PDict entries =>
      "{" ++ join ", "
        ((fix each (d : pydict) : list string :=
            match d with
            | [] => []
            | (k, x) :: rest => (repr_str I k ++ ": " ++ py_repr I x) :: each rest
            end) entries) ++ "}"
  | PObj r _ => r
  end.

Definition py_str (I : interpreter) (v : pyval) : string :=
  match v with
  | PStr s => s
  | _ => py_repr I v
  end.

(** ** Response builders *)

Definition id_entry (request_id : pyval) : pydict :=
  if is_none request_id then [] else [("id", request_id)].

Definition _success_response (request_id result : pyval) : pyval :=
  PDict ([("jsonrpc", PStr "2.0"); ("result", result)] ++ id_entry request_id)%list.

(** [data] is [None] when the caller leaves it out. *)
Definition _error_response (request_id code message data : pyval) : pyval :=
  let error :=
    ([("code", code); ("message", message)]
       ++ (if truthy data then [("data", data)] else []))%list in
  PDict ([("jsonrpc", PStr "2.0"); ("error", PDict error)] ++ id_entry request_id)%list.

Definition error_envelope (request_id : pyval) (code : Z) (message data : string)
  : pyval :=
  _error_response request_id (PInt code) (PStr message) (PStr data).

(** ** The dispatcher *)

(** [obj.get(k, default)]: only a dict has the method. *)
Definition py_get (I : interpreter) (obj : pyval) (k : string) (default : pyval)
  : outcome pyval :=
  match obj with
  | PDict d => Ret (dict_get k default d)
  | _ => interp_raise I (NoAttributeGet obj)
  end.

(** [self.tools.get(key)]: the key is hashed first; the registry has
    string keys only, so no other hashable key is found. *)
Definition tools_get (I : interpreter) (key : pyval)
  (registry : list (string * tool_info)) : outcome (option tool_info) :=
  match key with
  | PStr s => Ret (assoc_get s registry)
  | PList _ | PDict _ => interp_raise I (Unhashable key)
  | _ => Ret None
  end.

(** [p in c]: key of a dict, element of a list, substring of a string. *)
Definition py_in (I : interpreter) (p : string) (c : pyval) : outcome bool :=
  match c with
  | PDict d => Ret (dict_has p d)
  | PList items => Ret (existsb (fun x => eq_str x p) items)
  | PStr s => Ret (contains p s)
  | _ => interp_raise I (NotAContainer c)
  end.

(** [[p for p in required_params if p not in args]]. *)
Fixpoint missing_params (I : interpreter) (required : list string) (args : pyval)
  : outcome (list string) :=
  match required with
  | [] => Ret []
  | p :: rest =>
      present <- py_in I p args ;;
      more <- missing_params I rest args ;;
      Ret (if present then more else p :: more)
  end.

(** [MCP.initialize]: the debug line serialises truthy [params] before
    the flag is set. *)
Definition initialize (I : interpreter) (params : pyval) (st : server)
  : outcome pyval * server :=
  match (if truthy params then json_dumps I params else Ret tt) with
  | Raise e => (Raise e, st)
  | Ret _ =>
      (Ret (PDict
         [("protocolVersion", PStr "2024-11-05");
          ("capabilities",
             PDict [("tools", PDict [("listChanged", PBool false)])]);
          ("serverInfo",
             PDict [("name", PStr (server_name st));
                    ("version", PStr (server_version st))])]),
       set_initialized st true)
  end.

(** One element of the [tools/list] answer. *)
Definition tool_schema (tool_name : string) (info : tool_info) : pyval :=
  PDict [("name", PStr tool_name);
         ("description", description info);
         ("inputSchema",
            PDict [("type", PStr "object");
                   ("properties", PDict (properties info));
                   ("required", PList (map PStr (required_params info)))])].

Definition tools_list (st : server) : list pyval :=
  map (fun entry => tool_schema (fst entry) (snd entry)) (tools st).

(** The last statement of both tool paths: the debug line serialises a
    result that is not [None]. *)
Definition log_result (I : interpreter) (result : pyval) : outcome unit :=
  if is_none result then Ret tt else json_dumps I result.

Definition missing_text (missing : list string) : string :=
  "Missing required parameters: " ++ join ", " missing.

Definition not_found_text (I : interpreter) (name : pyval) : string :=
  "Tool '" ++ py_str I name ++ "' not found".

(** The result of [tools/call] around the tool's return value. *)
Definition content_result (I : interpreter) (result : pyval) : pyval :=
  PDict [("content",
          PList [PDict [("type", PStr "text");
                        ("text", PStr (py_str I result))]])].

(** The [tools/call] branch of [run]. *)
Definition tools_call (I : interpreter) (request_id params : pyval) (st : server)
  : outcome pyval :=
  tool_name <- py_get I params "name" PNone ;;
  tool_arguments <- py_get I params "arguments" (PDict []) ;;
  if negb (truthy tool_name) then
    Ret (error_envelope request_id (-32602) "Invalid params"
           "Missing tool name in tools/call")
  else
    found <- tools_get I tool_name (tools st) ;;
    match found with
    | None =>
        Ret (error_envelope request_id (-32601) "Method not found"
               (not_found_text I tool_name))
    | Some info =>
        json_dumps I tool_arguments ;;;
        missing <- missing_params I (required_params info) tool_arguments ;;
        match missing with
        | _ :: _ =>
            Ret (error_envelope request_id (-32602) "Invalid params"
                   (missing_text missing))
        | [] =>
            result <- call_with I (function info) (initialized st) tool_arguments ;;
            let response :=
              _success_response request_id (content_result I result) in
            log_result I result ;;;
            Ret response
        end
    end.

(** The last part of [run]: the method is taken as a tool name. *)
Definition direct_call (I : interpreter) (request_id method params : pyval)
  (st : server) : outcome pyval :=
  found <- tools_get I method (tools st) ;;
  match found with
  | None =>
      Ret (error_envelope request_id (-32601) "Method not found"
             (not_found_text I method))
  | Some info =>
      json_dumps I params ;;;
      missing <- missing_params I (required_params info) params ;;
      match missing with
      | _ :: _ =>
          Ret (error_envelope request_id (-32602) "Invalid params"
                 (missing_text missing))
      | [] =>
          result <- call_with I (function info) (initialized st) params ;;
          let response := _success_response request_id result in
          log_result I result ;;;
          Ret response
      end
  end.

(** The body of the [try] once the version check has passed. *)
Definition dispatch (I : interpreter) (request_id method params : pyval)
  (st : server) : outcome pyval * server :=
  if negb (truthy method) then
    (Ret (error_envelope request_id (-32600) "Invalid Request" "Missing method"),
     st)
  else if eq_str method "initialize" then
    match initialize I params st with
    | (Ret result, st') => (Ret (_success_response request_id result), st')
    | (Raise e, st') => (Raise e, st')
    end
  else if eq_str method "initialized"
          || eq_str method "notifications/initialized" then
    (Ret (_success_response request_id (PDict [])), st)
  else if eq_str method "tools/list" then
    (Ret (_success_response request_id (PDict [("tools", PList (tools_list st))])),
     st)
  else if eq_str method "tools/call" then
    (tools_call I request_id params st, st)
  else
    let st1 := if initialized st then st else snd (initialize I PNone st) in
    (direct_call I request_id method params st1, st1).

(** The two [except] clauses; [request_id] is the local variable as it
    stands when the exception arrives. *)
Definition handle_exception (request_id : pyval) (e : exn) : pyval :=
  match exn_cls e with
  | JSONDecodeError =>
      error_envelope PNone (-32700) "Parse error" "Invalid JSON"
  | OtherException _ =>
      error_envelope request_id (-32603) "Internal error"
        ("An error occurred during tool execution: " ++ exn_msg e)
  end.

(** The first statement of the [try]: text is parsed, anything else is
    serialised for the debug line and taken as the request. *)
Definition load_request (I : interpreter) (request_json : pyval) : outcome pyval :=
  match request_json with
  | PStr s =>
      match json_loads I s with
      | Some request => Ret request
      | None => Raise (mk_exn JSONDecodeError (json_error_text I s))
      end
  | _ => json_dumps I request_json ;;; Ret request_json
  end.

(** [MCP.run]: the answer and the server afterwards. *)
Definition run (I : interpreter) (request_json : pyval) (st : server)
  : pyval * server :=
  match load_request I request_json with
  | Raise e => (handle_exception PNone e, st)
  | Ret (PDict request) =>
      if negb (eq_str (dict_get "jsonrpc" PNone request) "2.0") then
        (error_envelope PNone (-32600) "Invalid Request"
           "Missing or invalid jsonrpc version", st)
      else
        let request_id := dict_get "id" PNone request in
        let method := dict_get "method" PNone request in
        let params := dict_get "params" (PDict []) request in
        match dispatch I request_id method params st with
        | (Ret response, st') => (response, st')
        | (Raise e, st') => (handle_exception request_id e, st')
        end
  | Ret other =>
      (handle_exception PNone
         (mk_exn (OtherException "AttributeError")
                 (error_text I (NoAttributeGet other))), st)
  end.

(** ** Reading a response *)

(** [response.get("id")], [response["error"]["code"]] and the like, for
    stating what an answer holds. *)
Definition response_member (k : string) (response : pyval) : option pyval :=
  match response with
  | PDict d => dict_lookup k d
  | _ => None
  end.

Definition error_member (k : string) (response : pyval) : option pyval :=
  match response_member "error" response with
  | Some e => response_member k e
  | None => None
  end.

(** The identifier a request carries: absent when the key is missing or
    its value is [null]. *)
Definition request_id_of (request : pydict) : option pyval :=
  match dict_lookup "id" request with
  | Some PNone | None => None
  | Some v => Some v
  end.

(** The request [run] works on once its argument has been loaded: the
    argument itself when it is a dict that serialises, or the dict the
    parser makes of a text. *)
Definition received (I : interpreter) (request_json : pyval) (request : pydict)
  : Prop :=
  serializable (PDict request) = true /\
  (request_json = PDict request \/
   exists s, request_json = PStr s /\ json_loads I s = Some (PDict request)).

(** How [run] ends once [dispatch] has answered or raised. *)
Definition conclude (request_id : pyval) (r : outcome pyval * server)
  : pyval * server :=
  match r with
  | (Ret response, st') => (response, st')
  | (Raise e, st') => (handle_exception request_id e, st')
  end.

(** ** A reference interpreter and sample tools *)

(** CPython's wording of the interpreter errors (the message for missing
    arguments without its count), a [repr] that is right for strings
    without quotes, backslashes or control characters, and a parser that
    knows one request text and gives every other text the message of a
    text that starts no JSON value. *)
Definition cpython_error_text (e : interp_error) : string :=
  match e with
  | NoAttributeGet v => "'" ++ type_name v ++ "' object has no attribute 'get'"
  | Unhashable v => "unhashable type: '" ++ type_name v ++ "'"
  | NotAContainer v => "argument of type '" ++ type_name v ++ "' is not iterable"
  | NotAMapping f v =>
      f ++ "() argument after ** must be a mapping, not " ++ type_name v
  | UnexpectedKeyword f k =>
      f ++ "() got an unexpected keyword argument '" ++ k ++ "'"
  | MissingArguments f names =>
      f ++ "() missing required arguments: " ++ join ", " names
  | NotSerializable v =>
      "Object of type " ++ type_name v ++ " is not JSON serializable"
  | UnhashableAnnotation => "unhashable type: 'list'"
  end.

Definition quoted (s : string) : string :=
  String "034" s ++ String "034" EmptyString.

(** The text [{"jsonrpc": "2.0", "method": "tools/list", "id": "list"}]. *)
Definition sample_request_text : string :=
  "{" ++ quoted "jsonrpc" ++ ": " ++ quoted "2.0" ++ ", "
      ++ quoted "method" ++ ": " ++ quoted "tools/list" ++ ", "
      ++ quoted "id" ++ ": " ++ quoted "list" ++ "}".

Definition sample_request : pydict :=
  [("jsonrpc", PStr "2.0"); ("method", PStr "tools/list"); ("id", PStr "list")].

Definition cpython : interpreter :=
  {| json_loads := fun s =>
       if s =? sample_request_text then Some (PDict sample_request) else None;
     json_error_text := fun _ => "Expecting value: line 1 column 1 (char 0)";
     repr_str := fun s => "'" ++ s ++ "'";
     error_text := cpython_error_text |}.

Definition int_param (name : string) : parameter :=
  {| p_name := name; p_kind := POSITIONAL_OR_KEYWORD;
     p_default := None; p_annotation := AnnType Tint |}.

(** [def add(x: int, y: int) -> int: return x + y] of the test-suite. *)
Definition add_func : pyfunc :=
  {| f_name := "add";
     f_doc := Some "Add two numbers.

            x: First number
            y: Second number
            ";
     f_params := [int_param "x"; int_param "y"];
     f_body := fun _ env =>
       match dict_lookup "x" env, dict_lookup "y" env with
       | Some (PInt x), Some (PInt y) => Ret (PInt (x + y))
       | _, _ => Raise (mk_exn (OtherException "TypeError")
                          "unsupported operand type(s) for +")
       end |}.

(** [def failing_func(): raise ValueError("Something went wrong!")]. *)
Definition failing_func : pyfunc :=
  {| f_name := "failing_func";
     f_doc := Some "Function that raises an exception.";
     f_params := [];
     f_body := fun _ _ =>
       Raise (mk_exn (OtherException "ValueError") "Something went wrong!") |}.

(** A tool that reports the [initialized] flag it finds:
    [def probe(): return server.initialized]. *)
Definition probe : pyfunc :=
  {| f_name := "probe";
     f_doc := None;
     f_params := [];
     f_body := fun flag _ => Ret (PBool flag) |}.

(** A tool that parses its argument:
    [def parse_config(text: str): return json.loads(text)], as it behaves
    on a text that is not JSON. *)
Definition parse_config : pyfunc :=
  {| f_name := "parse_config";
     f_doc := None;
     f_params := [{| p_name := "text"; p_kind := POSITIONAL_OR_KEYWORD;
                     p_default := None; p_annotation := AnnType Tstr |}];
     f_body := fun _ env =>
       match dict_lookup "text" env with
       | Some (PStr s) =>
           match json_loads cpython s with
           | Some v => Ret v
           | None => Raise (mk_exn JSONDecodeError (json_error_text cpython s))
           end
       | _ => Raise (mk_exn (OtherException "TypeError")
                       "the JSON object must be str, bytes or bytearray")
       end |}.

Definition test_meta (t d : string) : pydict :=
  [("Title", PStr t); ("Description", PStr d)].

(** The server after [MCP("Test Server", "1.0.0")] and the decorators. *)
Definition registered (funcs : list pyfunc) : outcome server :=
  fold_left
    (fun acc f => st <- acc ;; add cpython (test_meta (f_name f) "Test function") f st)
    funcs (Ret (new_server "Test Server" "1.0.0")).

Definition server_of (o : outcome server) : server :=
  match o with
  | Ret st => st
  | Raise _ => new_server "Test Server" "1.0.0"
  end.

Definition test_server : server :=
  server_of (registered [add_func; failing_func; probe; parse_config]).

(** The requests of the test-suite: a [tools/call] and a direct call. *)
Definition call_request (request_id : pyval) (name : string) (args : pydict)
  : pydict :=
  [("jsonrpc", PStr "2.0"); ("method", PStr "tools/call");
   ("params", PDict [("name", PStr name); ("arguments", PDict args)]);
   ("id", request_id)].

Definition direct_request (request_id : pyval) (name : string) (params : pydict)
  : pydict :=
  [("jsonrpc", PStr "2.0"); ("method", PStr name);
   ("params", PDict params); ("id", request_id)].

(** [def total(items: [int]): ...]: the annotation is a list display. *)
Definition total : pyfunc :=
  {| f_name := "total";
     f_doc := None;
     f_params := [{| p_name := "items"; p_kind := POSITIONAL_OR_KEYWORD;
                     p_default := None;
                     p_annotation := AnnObject false None |}];
     f_body := fun _ _ => Ret PNone |}.

(** The records the decorator stores for [add] and [failing_func]. *)
Definition add_info : tool_info :=
  build_tool_info (test_meta "add" "Test function") add_func ["x"; "y"]
    [("x", PDict [("type", PStr "integer");
                  ("description", PStr "First number")]);
     ("y", PDict [("type", PStr "integer");
                  ("description", PStr "Second number")])].

Definition failing_info : tool_info :=
  build_tool_info (test_meta "failing_func" "Test function") failing_func [] [].

(** A server whose tools raise no [JSONDecodeError]. *)
Definition plain_server : server :=
  server_of (registered [add_func; failing_func]).

(** The record a second [@server.add] of a function named [failing_func]
    would store. *)
Definition replacement : tool_info :=
  build_tool_info (test_meta "Failing" "Now documented") failing_func [] [].

(** The token table of the textual branch, in the order of the tests. *)
Definition text_rules : list (list string * string) :=
  [(["int"], "integer");
   (["float"; "number"], "number");
   (["bool"], "boolean");
   (["list"; "array"], "array");
   (["dict"; "object"], "object")].

(** The first rule one of whose tokens occurs in the lowered text. *)
Definition first_rule (s : string) : option string :=
  option_map snd
    (find (fun rule => existsb (fun token => contains token (lower s)) (fst rule))
          text_rules).

(** ** Vocabulary of the statements *)

(** The answer [run] gives for what the [try] body produced. *)
Definition answer (request_id : pyval) (o : outcome pyval) : pyval :=
  match o with
  | Ret response => response
  | Raise e => handle_exception request_id e
  end.

(** A parameter is required when it has no default value. *)
Definition has_no_default (p : parameter) : bool :=
  match p_default p with
  | None => true
  | Some _ => false
  end.

Definition declared_required (func : pyfunc) : list string :=
  map p_name (filter has_no_default (f_params func)).

(** The names of [names] that are no key of [args], in the order of
    [names]. *)
Definition omitted (args : pydict) (names : list string) : list string :=
  filter (fun p => negb (dict_has p args)) names.

(** What the two tool paths make of a finished call. *)
Definition tools_call_outcome (I : interpreter) (request_id : pyval)
  (called : outcome pyval) : outcome pyval :=
  result <- called ;;
  log_result I result ;;;
  Ret (_success_response request_id (content_result I result)).

Definition direct_call_outcome (I : interpreter) (request_id : pyval)
  (called : outcome pyval) : outcome pyval :=
  result <- called ;;
  log_result I result ;;;
  Ret (_success_response request_id result).

(** The server after the auto-initialisation of the direct path. *)
Definition auto_initialized (st : server) : server :=
  if initialized st then st else set_initialized st true.

(** The methods [run] handles itself before it looks for a tool. *)
Definition protocol_methods : list string :=
  ["initialize"; "initialized"; "notifications/initialized";
   "tools/list"; "tools/call"].


(** A tool whose body never raises [json.JSONDecodeError]. *)
Definition no_decode_error (info : tool_info) : Prop :=
  forall flag env e,
    f_body (function info) flag env = Raise e -> exn_cls e <> JSONDecodeError.

(** The identifier an answer must echo for the local [request_id]. *)
Definition echoed (request_id : pyval) : option pyval :=
  match request_id with
  | PNone => None
  | v => Some v
  end.

(** What [run] may do with an outcome of the [try] body for the answer to
    carry the identifier: an answer has it, an exception is not a
    [JSONDecodeError]. *)
Definition keeps_id (request_id : pyval) (o : outcome pyval) : Prop :=
  match o with
  | Ret response => response_member "id" response = echoed request_id
  | Raise e => exn_cls e <> JSONDecodeError
  end.

(** A computation that raises no [JSONDecodeError]. *)
Definition plain {A : Type} (c : outcome A) : Prop :=
  forall e, c = Raise e -> exn_cls e <> JSONDecodeError.

(** ** Shape of an answer *)

(** The five codes [run] uses. *)
Definition error_codes : list Z :=
  [-32700; -32600; -32601; -32602; -32603]%Z.

(** A JSON-RPC answer: the version tag and either a result or an error
    object with one of the five codes and a text message, never both. *)
Definition well_formed (response : pyval) : Prop :=
  response_member "jsonrpc" response = Some (PStr "2.0") /\
  ((exists result,
      response_member "result" response = Some result /\
      response_member "error" response = None)
   \/
   (exists code message,
      response_member "result" response = None /\
      error_member "code" response = Some (PInt code) /\
      In code error_codes /\
      error_member "message" response = Some (PStr message))).

(** An outcome of the [try] body whose answer, if any, is well formed. *)
Definition answers_well (o : outcome pyval) : Prop :=
  match o with
  | Ret response => well_formed response
  | Raise _ => True
  end.

(** The capabilities [initialize] reports. *)
Definition capabilities (st : server) : pyval :=
  PDict
    [("protocolVersion", PStr "2024-11-05");
     ("capabilities", PDict [("tools", PDict [("listChanged", PBool false)])]);
     ("serverInfo",
        PDict [("name", PStr (server_name st));
               ("version", PStr (server_version st))])].

(** ** Registration and binding in closed form *)

(** The value a keyword-capable parameter is bound to: its keyword, else
    its default. *)
Definition bound_value (kwargs : pydict) (p : parameter) : pyval :=
  match dict_lookup (p_name p) kwargs, p_default p with
  | Some v, _ => v
  | None, Some d => d
  | None, None => PNone
  end.

Definition bound_env (kwargs : pydict) (params : list parameter) : pydict :=
  map (fun p => (p_name p, bound_value kwargs p)) params.

(** The schema type of a parameter whose annotation can be hashed. *)
Definition schema_type_of (I : interpreter) (p : parameter) : string :=
  match _infer_param_type_from_annotation I (p_annotation p) with
  | Ret ty => ty
  | Raise _ => "string"
  end.

(** The entry of [properties] the decorator writes for a parameter. *)
Definition property_entry (I : interpreter) (func : pyfunc) (p : parameter)
  : string * pyval :=
  (p_name p,
   PDict [("type", PStr (schema_type_of I p));
          ("description", PStr (param_description func (p_name p)))]).

Definition hashable_annotation (ann : annotation) : bool :=
  match ann with
  | AnnObject false _ => false
  | _ => true
  end.

(** The two tests [scan_doc] makes on a stripped docstring line. *)
Definition line_names (name line : string) : bool :=
  prefix (name ++ ":") line || prefix ("- " ++ name ++ ":") line.

Definition line_mentions (name line : string) : bool :=
  contains ("param " ++ name) (lower line)
  || contains ("parameter " ++ name) (lower line).

Definition is_upper (c : ascii) : bool :=
  let n := nat_of_ascii c in ((65 <=? n) && (n <=? 90))%nat.

Fixpoint has_char (f : ascii -> bool) (s : string) : bool :=
  match s with
  | EmptyString => false
  | String c rest => f c || has_char f rest
  end.

Definition newline : string := String "010" EmptyString.

Definition is_colon (c : ascii) : bool := (c =? ":")%char.

Definition is_newline (c : ascii) : bool := (nat_of_ascii c =? 10)%nat.

(** ** Logging state *)

(** The handlers a logger can hold: the [StreamHandler] and
    [NullHandler] the class attaches, and handlers of the host program,
    which may or may not be instances of [logging.StreamHandler]. *)
Inductive handler : Type :=
| StreamHandler
| NullHandler
| OtherHandler (stream : bool).

(** [isinstance(h, logging.StreamHandler)]. *)
Definition is_stream (h : handler) : bool :=
  match h with
  | StreamHandler => true
  | NullHandler => false
  | OtherHandler stream => stream
  end.

(** What the class reads and writes of a [logging.Logger]. *)
Record logger : Type := {
  level : Z;
  handlers : list handler
}.

(** The loggers of the process: [logging.getLogger(name)] gives the one
    logger of that name, new ones start at [NOTSET] without handlers. *)
Definition logging_world := list (string * logger).

Definition getLogger (name : string) (world : logging_world) : logger :=
  match assoc_get name world with
  | Some l => l
  | None => {| level := 0; handlers := [] |}
  end.

Definition INFO : Z := 20.
Definition CRITICAL : Z := 50.

(** The part of an [MCP] instance that concerns logging: the name of
    its logger and the [enable_logging] flag. *)
Record mcp_logging : Type := {
  logger_name : string;
  enable_logging : bool
}.

(** [name.replace(' ', '_')]. *)
Fixpoint replace_spaces (s : string) : string :=
  match s with
  | EmptyString => EmptyString
  | String c rest =>
      String (if (c =? " ")%char then "_"%char else c) (replace_spaces rest)
  end.

Definition setLevel (name : string) (l : Z) (world : logging_world)
  : logging_world :=
  assoc_set name {| level := l; handlers := handlers (getLogger name world) |} world.

Definition set_handlers (name : string) (hs : list handler)
  (world : logging_world) : logging_world :=
  assoc_set name {| level := level (getLogger name world); handlers := hs |} world.

Definition addHandler (name : string) (h : handler) (world : logging_world)
  : logging_world :=
  set_handlers name (handlers (getLogger name world) ++ [h])%list world.

(** The logging part of [MCP.__init__]. *)
Definition init_logging (name : string) (log_level : Z) (enable : bool)
  (world : logging_world) : mcp_logging * logging_world :=
  let lname := "MCP." ++ replace_spaces name in
  let self := {| logger_name := lname; enable_logging := enable |} in
  if enable then
    let w1 := setLevel lname log_level world in
    (self,
     match handlers (getLogger lname w1) with
     | [] => addHandler lname StreamHandler w1
     | _ => w1
     end)
  else
    let w1 := setLevel lname (CRITICAL + 1) world in
    (self,
     match handlers (getLogger lname w1) with
     | [] => addHandler lname NullHandler w1
     | _ => w1
     end).

(** [MCP.set_log_level]; the record it logs is not part of the state. *)
Definition set_log_level (self : mcp_logging) (l : Z) (world : logging_world)
  : logging_world :=
  if enable_logging self then setLevel (logger_name self) l world else world.

(** [MCP.enable_logs]. *)
Definition enable_logs (self : mcp_logging) (enable : bool) (log_level : Z)
  (world : logging_world) : mcp_logging * logging_world :=
  let lname := logger_name self in
  let self' := {| logger_name := lname; enable_logging := enable |} in
  if enable then
    let w1 := setLevel lname log_level world in
    (self',
     if existsb is_stream (handlers (getLogger lname w1)) then w1
     else addHandler lname StreamHandler w1)
  else
    let w1 := setLevel lname (CRITICAL + 1) world in
    let w2 :=
      set_handlers lname
        (filter (fun h => negb (is_stream h)) (handlers (getLogger lname w1))) w1 in
    (self',
     match handlers (getLogger lname w2) with
     | [] => addHandler lname NullHandler w2
     | _ => w2
     end).

(** ** The Lambda adapter *)

(** Interpreter errors of [lambda_handler] beyond those of [run]. *)
Inductive adapter_error : Type :=
| KeyMissing (k : string)            (* [d[k]] on a dict without [k] *)
| BadSubscript (v : pyval)           (* a subscript the value does not take *)
| IndexOutOfRange                    (* [l[0]] on an empty sequence *)
| LoadsNeedsText (v : pyval).        (* [json.loads] of a value that is no text *)

(** What the adapter takes from the runtime besides [interpreter]: the
    text [json.dumps] produces and the messages of the errors above. *)
Record adapter_runtime : Type := {
  dumps_text : pyval -> string;
  adapter_text : adapter_error -> string
}.

Definition adapter_class (e : adapter_error) : string :=
  match e with
  | KeyMissing _ => "KeyError"
  | IndexOutOfRange => "IndexError"
  | BadSubscript _ | LoadsNeedsText _ => "TypeError"
  end.

Definition adapter_raise {A : Type} (R : adapter_runtime) (e : adapter_error)
  : outcome A :=
  Raise (mk_exn (OtherException (adapter_class e)) (adapter_text R e)).

(** [v[k]] for a string key. *)
Definition getitem (R : adapter_runtime) (k : string) (v : pyval) : outcome pyval :=
  match v with
  | PDict d =>
      match dict_lookup k d with
      | Some x => Ret x
      | None => adapter_raise R (KeyMissing k)
      end
  | _ => adapter_raise R (BadSubscript v)
  end.

(** [v[0]]. *)
Definition getitem0 (R : adapter_runtime) (v : pyval) : outcome pyval :=
  match v with
  | PList (x :: _) => Ret x
  | PList [] => adapter_raise R IndexOutOfRange
  | PStr (String c _) => Ret (PStr (String c EmptyString))
  | PStr EmptyString => adapter_raise R IndexOutOfRange
  | PDict _ => adapter_raise R (KeyMissing "0")
  | _ => adapter_raise R (BadSubscript v)
  end.

(** [json.loads(v)]. *)
Definition loads_value (I : interpreter) (R : adapter_runtime) (v : pyval)
  : outcome pyval :=
  match v with
  | PStr s =>
      match json_loads I s with
      | Some x => Ret x
      | None => Raise (mk_exn JSONDecodeError (json_error_text I s))
      end
  | _ => adapter_raise R (LoadsNeedsText v)
  end.

(** [json.dumps(v)] with its text. *)
Definition dumps_value (I : interpreter) (R : adapter_runtime) (v : pyval)
  : outcome string :=
  json_dumps I v ;;; Ret (dumps_text R v).

(** The first part of the [try]: the request an event carries. *)
Definition event_request (I : interpreter) (R : adapter_runtime) (event : pyval)
  : outcome pyval :=
  has_body <- py_in I "body" event ;;
  if has_body then
    body <- getitem R "body" event ;;
    match body with
    | PStr _ => loads_value I R body
    | _ => Ret body
    end
  else
    has_records <- py_in I "Records" event ;;
    if has_records then
      records <- getitem R "Records" event ;;
      record <- getitem0 R records ;;
      body <- getitem R "body" record ;;
      loads_value I R body
    else Ret event.

Definition cors_headers : pyval :=
  PDict [("Content-Type", PStr "application/json");
         ("Access-Control-Allow-Origin", PStr "*");
         ("Access-Control-Allow-Methods", PStr "POST, GET, OPTIONS");
         ("Access-Control-Allow-Headers", PStr "Content-Type")].

(** The answers of the two [except] clauses. *)
Definition adapter_failure (R : adapter_runtime) (e : exn) : pyval :=
  match exn_cls e with
  | JSONDecodeError =>
      PDict [("statusCode", PInt 400);
             ("body",
              PStr (dumps_text R
                (PDict [("jsonrpc", PStr "2.0");
                        ("error", PDict [("code", PInt (-32700));
                                         ("message", PStr "Parse error");
                                         ("data", PStr (exn_msg e))]);
                        ("id", PNone)])))]
  | OtherException _ =>
      PDict [("statusCode", PInt 500);
             ("body",
              PStr (dumps_text R
                (PDict [("jsonrpc", PStr "2.0");
                        ("error", PDict [("code", PInt (-32603));
                                         ("message", PStr "Internal error");
                                         ("data", PStr (exn_msg e))]);
                        ("id", PNone)])))]
  end.

(** [lambda_handler(event, context)] on the module's server: the log
    line before the [try] serialises the event, the [try] finds the
    request, runs it and wraps the answer for API Gateway when the event
    has a body. *)
Definition lambda_handler (I : interpreter) (R : adapter_runtime)
  (event : pyval) (st : server) : outcome pyval * server :=
  match json_dumps I event with
  | Raise e => (Raise e, st)
  | Ret _ =>
      match (request_data <- event_request I R event ;;
             json_dumps I request_data ;;; Ret request_data) with
      | Raise e => (Ret (adapter_failure R e), st)
      | Ret request_data =>
          let (response, st') := run I request_data st in
          match (json_dumps I response ;;;
                 has_body <- py_in I "body" event ;;
                 if has_body then
                   body <- dumps_value I R response ;;
                   Ret (PDict [("statusCode", PInt 200);
                               ("headers", cors_headers);
                               ("body", PStr body)])
                 else Ret response) with
          | Raise e => (Ret (adapter_failure R e), st')
          | Ret answer => (Ret answer, st')
          end
      end
  end.

(** ** More sample data *)

(** [collect], declared with the single parameter [*items]: a catch-all
    tuple and nothing else. *)
Definition collect : pyfunc :=
  {| f_name := "collect";
     f_doc := None;
     f_params := [{| p_name := "items"; p_kind := VAR_POSITIONAL;
                     p_default := None; p_annotation := AnnEmpty |}];
     f_body := fun _ _ => Ret (PInt 0) |}.

Definition collecting_server : server := server_of (registered [collect]).

(** A reference serialiser: [json.dumps] with its default separators,
    right for texts without quotes, backslashes, control or non-ASCII
    characters. *)
Fixpoint json_text (v : pyval) : string :=
  match v with
  | PNone => "null"
  | PBool true => "true"
  | PBool false => "false"
  | PInt n => str_of_Z n
  | PFloat r => r
  | PStr s => quoted s
  | PList items => "[" ++ join ", " (map json_text items) ++ "]"
  | PDict entries =>
      "{" ++ join ", "
        ((fix each (d : pydict) : list string :=
            match d with
            | [] => []
            | (k, x) :: rest => (quoted k ++ ": " ++ json_text x) :: each rest
            end) entries) ++ "}"
  | PObj r _ => r
  end.

Definition cpython_adapter_text (e : adapter_error) : string :=
  match e with
  | KeyMissing k => "'" ++ k ++ "'"
  | BadSubscript v => "'" ++ type_name v ++ "' object is not subscriptable"
  | IndexOutOfRange => "list index out of range"
  | LoadsNeedsText v =>
      "the JSON object must be str, bytes or bytearray, not " ++ type_name v
  end.

Definition cpython_adapter : adapter_runtime :=
  {| dumps_text := json_text; adapter_text := cpython_adapter_text |}.

(** Requests of the test-suite. *)
Definition no_version_request : pydict :=
  [("method", PStr "test_method"); ("params", PDict []); ("id", PInt 1)].

Definition no_method_request : pydict :=
  [("jsonrpc", PStr "2.0"); ("params", PDict []); ("id", PInt 1)].

Definition initialize_request : pydict :=
  [("jsonrpc", PStr "2.0"); ("method", PStr "initialize");
   ("params", PDict [("protocolVersion", PStr "2024-11-05")]);
   ("id", PStr "init")].


Definition no_name_request : pydict :=
  [("jsonrpc", PStr "2.0"); ("method", PStr "tools/call");
   ("params", PDict [("arguments", PDict [])]); ("id", PInt 1)].

Definition list_arguments_request : pydict :=
  [("jsonrpc", PStr "2.0"); ("method", PStr "tools/call");
   ("params", PDict [("name", PStr "add");
                     ("arguments", PList [PStr "x"; PStr "y"])]);
   ("id", PInt 1)].

Definition null_arguments_request : pydict :=
  [("jsonrpc", PStr "2.0"); ("method", PStr "tools/call");
   ("params", PDict [("name", PStr "failing_func"); ("arguments", PNone)]);
   ("id", PInt 1)].

(** An API Gateway event whose body is the sample text, and one whose
    body is not JSON. *)
Definition gateway_event : pydict :=
  [("body", PStr sample_request_text); ("httpMethod", PStr "POST")].

Definition broken_event : pydict :=
  [("body", PStr "not json"); ("httpMethod", PStr "POST")].

(** A text of ASCII characters only: on such texts [strip] and [lower]
    are [str.strip] and [str.lower]. *)
Definition is_ascii (c : ascii) : bool := (nat_of_ascii c <? 128)%nat.

Fixpoint ascii_text (s : string) : bool :=
  match s with
  | EmptyString => true
  | String c rest => is_ascii c && ascii_text rest
  end.

(** * Properties *)

(** ** Values and dictionaries *)

Lemma serializable_dict (d : pydict) :
  serializable (PDict d) = forallb (fun kv => serializable (snd kv)) d.
Proof.
  induction d as [|[k v] d IH]; [reflexivity|].
  simpl in *. now rewrite IH.
Qed.

Lemma serializable_lookup (d : pydict) (k : string) (v : pyval) :
  serializable (PDict d) = true ->
  dict_lookup k d = Some v ->
  serializable v = true.
Proof.
  rewrite serializable_dict.
  induction d as [|[k' v'] d IH]; simpl; [discriminate|].
  intros Hs Hl. apply andb_prop in Hs as [Hv Hd].
  destruct (k' =? k).
  - now inversion Hl; subst.
  - now apply IH.
Qed.

Lemma serializable_get (d : pydict) (k : string) (default : pyval) :
  serializable (PDict d) = true ->
  serializable default = true ->
  serializable (dict_get k default d) = true.
Proof.
  intros Hd Hdef. unfold dict_get.
  destruct (dict_lookup k d) eqn:E; [|assumption].
  eapply serializable_lookup; eassumption.
Qed.

Lemma assoc_get_set_same {A : Type} (k : string) (v : A) (d : list (string * A)) :
  assoc_get k (assoc_set k v d) = Some v.
Proof.
  induction d as [|[k' v'] d IH]; simpl.
  - now rewrite String.eqb_refl.
  - destruct (k' =? k) eqn:E; simpl.
    + now rewrite String.eqb_refl.
    + now rewrite E.
Qed.

Lemma assoc_get_set_other {A : Type} (k k0 : string) (v : A)
  (d : list (string * A)) :
  k <> k0 -> assoc_get k0 (assoc_set k v d) = assoc_get k0 d.
Proof.
  intros Hne.
  induction d as [|[k' v'] d IH]; simpl.
  - destruct (k =? k0) eqn:E; [|reflexivity].
    apply String.eqb_eq in E. contradiction.
  - destruct (k' =? k) eqn:E; simpl.
    + apply String.eqb_eq in E; subst k'.
      destruct (k =? k0) eqn:E0; [|reflexivity].
      apply String.eqb_eq in E0. contradiction.
    + destruct (k' =? k0); [reflexivity|exact IH].
Qed.

(** Assigning to a key that is there leaves the order of keys alone. *)
Lemma assoc_set_keys_present {A : Type} (k : string) (v : A)
  (d : list (string * A)) :
  In k (map fst d) -> map fst (assoc_set k v d) = map fst d.
Proof.
  induction d as [|[k' v'] d IH]; simpl; [tauto|].
  intros Hin. destruct (k' =? k) eqn:E; simpl.
  - apply String.eqb_eq in E. now subst.
  - f_equal. apply IH. destruct Hin as [H|H]; [|assumption].
    subst. now rewrite String.eqb_refl in E.
Qed.

(** Assigning to a new key appends it. *)
Lemma assoc_set_keys_absent {A : Type} (k : string) (v : A)
  (d : list (string * A)) :
  ~ In k (map fst d) -> assoc_set k v d = (d ++ [(k, v)])%list.
Proof.
  induction d as [|[k' v'] d IH]; simpl; [reflexivity|].
  intros Hnin. destruct (k' =? k) eqn:E.
  - apply String.eqb_eq in E. subst. tauto.
  - f_equal. apply IH. tauto.
Qed.


(** ** Loading a request *)

Section Dispatcher.

Variable I : interpreter.

Lemma load_received (request_json : pyval) (request : pydict) :
  received I request_json request ->
  load_request I request_json = Ret (PDict request).
Proof.
  intros [Hs [Heq | [s [Heq Hl]]]]; subst request_json.
  - unfold load_request, json_dumps. now rewrite Hs.
  - simpl. now rewrite Hl.
Qed.

Lemma run_received (request_json : pyval) (request : pydict) (st : server) :
  received I request_json request ->
  dict_lookup "jsonrpc" request = Some (PStr "2.0") ->
  run I request_json st =
    conclude (dict_get "id" PNone request)
      (dispatch I (dict_get "id" PNone request)
         (dict_get "method" PNone request)
         (dict_get "params" (PDict []) request) st).
Proof.
  intros Hr Hv. unfold run. rewrite (load_received _ _ Hr).
  unfold dict_get at 1. rewrite Hv. simpl.
  unfold conclude.
  destruct (dispatch I _ _ _ st) as [[response|e] st']; reflexivity.
Qed.

Lemma received_params (request_json : pyval) (request : pydict) :
  received I request_json request ->
  serializable (dict_get "params" (PDict []) request) = true.
Proof.
  intros [Hs _]. now apply serializable_get.
Qed.

End Dispatcher.

(** ** Response builder *)

(** C7. In an error envelope the [data] member is there exactly when the
    supplied data is truthy, and then it is the supplied value unchanged:
    an empty string, [None], [0], an empty list are dropped like absent
    data. *)
Theorem error_data_iff_truthy (request_id code message data : pyval) :
  error_member "data" (_error_response request_id code message data) =
    (if truthy data then Some data else None)
  /\ error_member "code" (_error_response request_id code message data) = Some code
  /\ error_member "message" (_error_response request_id code message data)
     = Some message.
Proof.
  unfold error_member, _error_response, response_member.
  cbn [dict_lookup app String.eqb Ascii.eqb Bool.eqb].
  destruct (truthy data); cbn; auto.
Qed.

Lemma id_entry_lookup (request_id : pyval) :
  dict_lookup "id" (id_entry request_id) =
    match request_id with PNone => None | v => Some v end.
Proof. destruct request_id; reflexivity. Qed.

Lemma success_id (request_id result : pyval) :
  response_member "id" (_success_response request_id result) =
    match request_id with PNone => None | v => Some v end.
Proof.
  unfold _success_response, response_member. cbn. apply id_entry_lookup.
Qed.

Lemma error_id (request_id code message data : pyval) :
  response_member "id" (_error_response request_id code message data) =
    match request_id with PNone => None | v => Some v end.
Proof.
  unfold _error_response, response_member. cbn. apply id_entry_lookup.
Qed.

(** ** Registry *)

Lemma registry_nodup_new (name version : string) :
  NoDup (list_tools (new_server name version)).
Proof. constructor. Qed.

Lemma registry_nodup_register (tool_name : string) (info : tool_info)
  (st : server) :
  NoDup (list_tools st) -> NoDup (list_tools (register_tool tool_name info st)).
Proof.
  unfold list_tools, register_tool. simpl. intros Hnd.
  destruct (in_dec string_dec tool_name (map fst (tools st))) as [Hin|Hnin].
  - now rewrite assoc_set_keys_present.
  - rewrite assoc_set_keys_absent by assumption.
    rewrite map_app. simpl.
    apply NoDup_app; [assumption|constructor; [tauto|constructor]|].
    intros x Hx [Hy|[]]. subst. contradiction.
Qed.


(** ** The two tool paths *)

Section ToolPaths.

Variable I : interpreter.

Lemma mem_str_In (k : string) (l : list string) :
  mem_str k l = true <-> In k l.
Proof.
  unfold mem_str. rewrite existsb_exists. split.
  - intros [x [Hx He]]. apply String.eqb_eq in He. now subst.
  - intros H. exists k. split; [assumption|apply String.eqb_refl].
Qed.

Lemma missing_params_dict (required : list string) (args : pydict) :
  missing_params I required (PDict args) = Ret (omitted args required).
Proof.
  induction required as [|p rest IH]; [reflexivity|].
  simpl. rewrite IH. simpl. now destruct (dict_has p args).
Qed.

(** The registration loop appends to [required], in declared order, the
    parameters without a default. *)
Lemma add_loop_required (func : pyfunc) (params : list parameter) :
  forall required props required' props',
  add_loop I func params required props = Ret (required', props') ->
  required' = (required ++ map p_name (filter has_no_default params))%list.
Proof.
  induction params as [|p rest IH]; intros required props required' props' H.
  - simpl in H. inversion H. now rewrite app_nil_r.
  - simpl in H.
    destruct (_infer_param_type_from_annotation I (p_annotation p)) as [ty|e];
      [|discriminate].
    simpl in H. apply IH in H. subst required'.
    unfold has_no_default at 2. simpl.
    destruct (p_default p); simpl; [reflexivity|].
    now rewrite <- app_assoc.
Qed.

Lemma add_registers (meta : pydict) (func : pyfunc) (st st' : server) :
  add I meta func st = Ret st' ->
  exists props,
    assoc_get (f_name func) (tools st') =
      Some (build_tool_info meta func (declared_required func) props).
Proof.
  unfold add. destruct (add_loop I func (f_params func) [] []) as [[r p]|e] eqn:E;
    [|discriminate].
  simpl. intros H. inversion H; subst st'. exists p.
  apply add_loop_required in E. simpl in E. subst r.
  unfold register_tool. simpl. apply assoc_get_set_same.
Qed.

Lemma truthy_name (name : string) : name <> "" -> truthy (PStr name) = true.
Proof.
  intros H. simpl. destruct (name =? "") eqn:E; [|reflexivity].
  apply String.eqb_eq in E. contradiction.
Qed.

(** [tools/call] on a registered tool with a dict of arguments. *)
Lemma tools_call_found (request_id : pyval) (params args : pydict)
  (name : string) (info : tool_info) (st : server) :
  serializable (PDict args) = true ->
  dict_lookup "name" params = Some (PStr name) ->
  name <> "" ->
  dict_get "arguments" (PDict []) params = PDict args ->
  assoc_get name (tools st) = Some info ->
  tools_call I request_id (PDict params) st =
    match omitted args (required_params info) with
    | [] => tools_call_outcome I request_id
              (call_kw I (function info) (initialized st) args)
    | missing =>
        Ret (error_envelope request_id (-32602) "Invalid params"
               (missing_text missing))
    end.
Proof.
  intros Hs Hn Hne Ha Hf.
  unfold tools_call. simpl. rewrite Ha.
  unfold dict_get. rewrite Hn. simpl bind.
  rewrite (truthy_name _ Hne). simpl. rewrite Hf. simpl bind.
  unfold json_dumps. rewrite Hs. simpl bind.
  rewrite missing_params_dict. simpl bind.
  destruct (omitted args (required_params info)); reflexivity.
Qed.

(** A direct call of a registered tool with a dict of [params]. *)
Lemma direct_call_found (request_id : pyval) (params : pydict)
  (name : string) (info : tool_info) (st : server) :
  serializable (PDict params) = true ->
  assoc_get name (tools st) = Some info ->
  direct_call I request_id (PStr name) (PDict params) st =
    match omitted params (required_params info) with
    | [] => direct_call_outcome I request_id
              (call_kw I (function info) (initialized st) params)
    | missing =>
        Ret (error_envelope request_id (-32602) "Invalid params"
               (missing_text missing))
    end.
Proof.
  intros Hs Hf.
  unfold direct_call. simpl. rewrite Hf. simpl bind.
  unfold json_dumps. rewrite Hs. simpl bind.
  rewrite missing_params_dict. simpl bind.
  destruct (omitted params (required_params info)); reflexivity.
Qed.

Lemma not_protocol_method (name : string) :
  ~ In name protocol_methods ->
  eq_str (PStr name) "initialize" = false
  /\ eq_str (PStr name) "initialized" = false
  /\ eq_str (PStr name) "notifications/initialized" = false
  /\ eq_str (PStr name) "tools/list" = false
  /\ eq_str (PStr name) "tools/call" = false.
Proof.
  intros H. unfold eq_str.
  repeat split;
    (apply String.eqb_neq; intros E; apply H; rewrite E; simpl; tauto).
Qed.

(** [dispatch] on a method that is no protocol method: the server is
    initialised, then the method is called as a tool. *)
Lemma dispatch_direct (request_id params : pyval) (name : string) (st : server) :
  name <> "" ->
  ~ In name protocol_methods ->
  dispatch I request_id (PStr name) params st =
    (direct_call I request_id (PStr name) params (auto_initialized st),
     auto_initialized st).
Proof.
  intros Hne Hnp. unfold dispatch.
  rewrite (truthy_name _ Hne).
  destruct (not_protocol_method _ Hnp) as (H1 & H2 & H3 & H4 & H5).
  rewrite H1, H2, H3, H4, H5. simpl.
  unfold auto_initialized. destruct (initialized st); reflexivity.
Qed.

Lemma initialized_auto (st : server) : initialized (auto_initialized st) = true.
Proof.
  unfold auto_initialized. destruct (initialized st) eqn:E; [exact E|reflexivity].
Qed.

Lemma tools_auto (st : server) : tools (auto_initialized st) = tools st.
Proof. unfold auto_initialized. now destruct (initialized st). Qed.

End ToolPaths.

(** ** Requests that reach a registered tool *)

Section ToolRequests.

Variable I : interpreter.
Variables (request_json : pyval) (request : pydict) (st : server).
Hypothesis Hreceived : received I request_json request.
Hypothesis Hversion : dict_lookup "jsonrpc" request = Some (PStr "2.0").

Let request_id := dict_get "id" PNone request.

(** [run] on a [tools/call] that names a registered tool and brings a
    dict of arguments (or none). *)
Lemma run_tools_call (params args : pydict) (name : string) (info : tool_info) :
  dict_lookup "method" request = Some (PStr "tools/call") ->
  dict_lookup "params" request = Some (PDict params) ->
  dict_lookup "name" params = Some (PStr name) ->
  name <> "" ->
  dict_get "arguments" (PDict []) params = PDict args ->
  assoc_get name (tools st) = Some info ->
  run I request_json st =
    (answer request_id
       match omitted args (required_params info) with
       | [] => tools_call_outcome I request_id
                 (call_kw I (function info) (initialized st) args)
       | missing =>
           Ret (error_envelope request_id (-32602) "Invalid params"
                  (missing_text missing))
       end, st).
Proof.
  intros Hm Hp Hn Hne Ha Hf.
  rewrite (run_received I _ _ _ Hreceived Hversion).
  unfold dict_get at 3 4. rewrite Hm, Hp.
  assert (Hsp : serializable (PDict params) = true).
  { destruct Hreceived as [Hs _]. eapply serializable_lookup; eassumption. }
  assert (Hsa : serializable (PDict args) = true).
  { rewrite <- Ha. now apply serializable_get. }
  unfold dispatch. cbn [truthy eq_str String.eqb Ascii.eqb Bool.eqb negb orb].
  rewrite (tools_call_found I _ _ _ _ _ _ Hsa Hn Hne Ha Hf).
  unfold conclude, answer. fold request_id.
  destruct (omitted args (required_params info)); [|reflexivity].
  destruct (tools_call_outcome I request_id _); reflexivity.
Qed.

(** [run] on a direct call of a registered tool with a dict of params
    (or none). *)
Lemma run_direct (params : pydict) (name : string) (info : tool_info) :
  dict_lookup "method" request = Some (PStr name) ->
  name <> "" ->
  ~ In name protocol_methods ->
  dict_get "params" (PDict []) request = PDict params ->
  assoc_get name (tools st) = Some info ->
  run I request_json st =
    (answer request_id
       match omitted params (required_params info) with
       | [] => direct_call_outcome I request_id
                 (call_kw I (function info) true params)
       | missing =>
           Ret (error_envelope request_id (-32602) "Invalid params"
                  (missing_text missing))
       end, auto_initialized st).
Proof.
  intros Hm Hne Hnp Hp Hf.
  rewrite (run_received I _ _ _ Hreceived Hversion).
  unfold dict_get at 3. rewrite Hm, Hp.
  assert (Hsp : serializable (PDict params) = true).
  { rewrite <- Hp. eapply received_params; eassumption. }
  rewrite (dispatch_direct I _ _ _ _ Hne Hnp).
  rewrite <- (tools_auto st) in Hf.
  rewrite (direct_call_found I _ _ _ _ _ Hsp Hf).
  rewrite initialized_auto.
  unfold conclude, answer. fold request_id.
  destruct (omitted params (required_params info)); [|reflexivity].
  destruct (direct_call_outcome I request_id _); reflexivity.
Qed.

End ToolRequests.

(** ** Parameter errors *)

Lemma success_no_error (request_id result : pyval) :
  response_member "error" (_success_response request_id result) = None.
Proof.
  unfold _success_response, response_member. cbn.
  destruct request_id; reflexivity.
Qed.

Lemma error_envelope_code (request_id : pyval) (code : Z) (message data : string) :
  error_member "code" (error_envelope request_id code message data)
    = Some (PInt code).
Proof. apply error_data_iff_truthy. Qed.

Lemma handled_code (request_id : pyval) (e : exn) :
  error_member "code" (handle_exception request_id e) = Some (PInt (-32700))
  \/ error_member "code" (handle_exception request_id e) = Some (PInt (-32603)).
Proof.
  unfold handle_exception. destruct (exn_cls e); rewrite error_envelope_code; auto.
Qed.

(** Once the tool has been called the answer is no parameter error. *)
Lemma called_no_param_error (I : interpreter) (request_id : pyval)
  (called : outcome pyval) :
  error_member "code" (answer request_id (tools_call_outcome I request_id called))
    <> Some (PInt (-32602)).
Proof.
  unfold answer, tools_call_outcome.
  destruct called as [result|e]; simpl.
  - destruct (log_result I result) as [[]|e]; simpl.
    + unfold error_member. now rewrite success_no_error.
    + destruct (handled_code request_id e) as [H|H]; rewrite H; discriminate.
  - destruct (handled_code request_id e) as [H|H]; rewrite H; discriminate.
Qed.

(** C9. A [tools/call] whose params carry a [name] that is falsy (an
    empty string, [null], [0], [false], an empty list or object) is
    answered like one without a name: -32602 "Invalid params" with data
    "Missing tool name in tools/call"; the answer is the same whatever the
    registry holds and the server is left as it was. *)
Theorem falsy_tool_name_is_missing (I : interpreter) (request_json : pyval)
  (request params : pydict) (name : pyval) (st : server) :
  received I request_json request ->
  dict_lookup "jsonrpc" request = Some (PStr "2.0") ->
  dict_lookup "method" request = Some (PStr "tools/call") ->
  dict_lookup "params" request = Some (PDict params) ->
  dict_lookup "name" params = Some name ->
  truthy name = false ->
  run I request_json st =
    (error_envelope (dict_get "id" PNone request) (-32602) "Invalid params"
       "Missing tool name in tools/call", st)
  /\ forall st', fst (run I request_json st') = fst (run I request_json st).
Proof.
  intros Hr Hv Hm Hp Hn Hf.
  assert (Hrun : forall s, run I request_json s =
    (error_envelope (dict_get "id" PNone request) (-32602) "Invalid params"
       "Missing tool name in tools/call", s)).
  { intros s. rewrite (run_received I _ _ _ Hr Hv).
    unfold dict_get at 3 4. rewrite Hm, Hp.
    unfold dispatch. cbn [truthy eq_str String.eqb Ascii.eqb Bool.eqb negb orb].
    unfold tools_call. simpl py_get. simpl bind.
    replace (dict_get "name" PNone params) with name
      by (unfold dict_get; now rewrite Hn).
    rewrite Hf. reflexivity. }
  split; [apply Hrun|]. intros st'. now rewrite !Hrun.
Qed.

(** ** What a finished call becomes *)



(** ** Keywords that bind nothing *)

Lemma keyword_names_declared (params : list parameter) (k : string) :
  In k (keyword_names params) -> In k (map p_name params).
Proof.
  unfold keyword_names. rewrite !in_map_iff.
  intros [p [Hp Hin]]. exists p. split; [assumption|].
  now apply filter_In in Hin.
Qed.

Lemma call_kw_unexpected (I : interpreter) (f : pyfunc) (flag : bool)
  (kwargs : pydict) (k : string) :
  In k (map fst kwargs) ->
  ~ In k (keyword_names (f_params f)) ->
  existsb is_var_keyword (f_params f) = false ->
  exists k',
    In k' (map fst kwargs) /\ ~ In k' (keyword_names (f_params f)) /\
    call_kw I f flag kwargs = interp_raise I (UnexpectedKeyword (f_name f) k').
Proof.
  intros Hin Hnk Hvk. unfold call_kw. rewrite Hvk.
  destruct (extra_keywords (f_params f) kwargs) as [|[k' v'] rest] eqn:E.
  - exfalso. apply in_map_iff in Hin as [[k0 v0] [Hk Hin]]. simpl in Hk. subst k0.
    assert (Hx : In (k, v0) (extra_keywords (f_params f) kwargs)).
    { unfold extra_keywords. apply filter_In. split; [assumption|]. simpl.
      destruct (mem_str k (keyword_names (f_params f))) eqn:Em; [|reflexivity].
      apply mem_str_In in Em. contradiction. }
    rewrite E in Hx. exact Hx.
  - exists k'. assert (Hx : In (k', v') (extra_keywords (f_params f) kwargs)).
    { rewrite E. now left. }
    unfold extra_keywords in Hx. apply filter_In in Hx as [Hx Hp]. simpl in Hp.
    repeat split.
    + apply in_map_iff. now exists (k', v').
    + intros Hc. apply mem_str_In in Hc. now rewrite Hc in Hp.
Qed.

(** C8 (amended). A direct call of a registered tool that has no
    catch-all keyword parameter, with params that hold every required
    parameter and also a key that is none of the declared parameter
    names, is not answered with -32602: the arguments reach the call
    unfiltered, the binding fails on a key that names no keyword
    parameter, and the answer is -32603 "Internal error" carrying the
    interpreter's message. *)
Theorem extra_argument_is_internal_error (I : interpreter) (request_json : pyval)
  (request params : pydict) (name k : string) (info : tool_info) (st : server) :
  received I request_json request ->
  dict_lookup "jsonrpc" request = Some (PStr "2.0") ->
  dict_lookup "method" request = Some (PStr name) ->
  name <> "" ->
  ~ In name protocol_methods ->
  dict_get "params" (PDict []) request = PDict params ->
  assoc_get name (tools st) = Some info ->
  omitted params (required_params info) = [] ->
  existsb is_var_keyword (f_params (function info)) = false ->
  In k (map fst params) ->
  ~ In k (map p_name (f_params (function info))) ->
  exists k',
    In k' (map fst params)
    /\ ~ In k' (keyword_names (f_params (function info)))
    /\ run I request_json st =
         (error_envelope (dict_get "id" PNone request) (-32603) "Internal error"
            ("An error occurred during tool execution: "
               ++ error_text I (UnexpectedKeyword (f_name (function info)) k')),
          auto_initialized st)
    /\ error_member "code" (fst (run I request_json st)) <> Some (PInt (-32602)).
Proof.
  intros Hr Hv Hm Hne Hnp Hp Hf Hom Hvk Hin Hnd.
  assert (Hnk : ~ In k (keyword_names (f_params (function info)))).
  { intros Hc. apply Hnd. now apply keyword_names_declared. }
  destruct (call_kw_unexpected I (function info) true params k Hin Hnk Hvk)
    as (k' & Hin' & Hnk' & Hcall).
  exists k'. split; [assumption|]. split; [assumption|].
  match goal with |- ?eqn /\ _ => assert (Hrun : eqn) end.
  { rewrite (run_direct I _ _ st Hr Hv _ _ _ Hm Hne Hnp Hp Hf).
    now rewrite Hom, Hcall. }
  split; [exact Hrun|].
  rewrite Hrun. cbn [fst]. rewrite error_envelope_code. discriminate.
Qed.

(** ** Identifiers *)

Section IdEcho.

Variable I : interpreter.

Lemma plain_ret {A : Type} (a : A) : plain (Ret a).
Proof. intros e H. discriminate. Qed.

Lemma plain_interp_raise {A : Type} (err : interp_error) :
  plain (@interp_raise A I err).
Proof. intros e H. inversion H. simpl. discriminate. Qed.

Lemma plain_bind {A B : Type} (c : outcome A) (k : A -> outcome B) :
  plain c -> (forall a, c = Ret a -> plain (k a)) -> plain (bind c k).
Proof.
  intros Hc Hk. destruct c as [a|e]; simpl.
  - now apply Hk.
  - intros e' H. inversion H; subst. now apply Hc.
Qed.

Create HintDb plain.
#[local] Hint Resolve plain_ret plain_interp_raise : plain.

Lemma plain_py_get (obj : pyval) (k : string) (default : pyval) :
  plain (py_get I obj k default).
Proof. destruct obj; simpl; auto with plain. Qed.

Lemma plain_tools_get (key : pyval) (registry : list (string * tool_info)) :
  plain (tools_get I key registry).
Proof. destruct key; simpl; auto with plain. Qed.

Lemma plain_json_dumps (v : pyval) : plain (json_dumps I v).
Proof. unfold json_dumps. destruct (serializable v); auto with plain. Qed.

Lemma plain_log_result (v : pyval) : plain (log_result I v).
Proof.
  unfold log_result. destruct (is_none v); auto using plain_json_dumps with plain.
Qed.

Lemma plain_py_in (p : string) (c : pyval) : plain (py_in I p c).
Proof. destruct c; simpl; auto with plain. Qed.

Lemma plain_missing_params (required : list string) (args : pyval) :
  plain (missing_params I required args).
Proof.
  induction required as [|p rest IH]; simpl; auto with plain.
  apply plain_bind; [apply plain_py_in|]. intros present _.
  apply plain_bind; [exact IH|]. intros more _. apply plain_ret.
Qed.

Lemma plain_call_with (info : tool_info) (flag : bool) (args : pyval) :
  no_decode_error info -> plain (call_with I (function info) flag args).
Proof.
  intros Hnd. unfold call_with.
  destruct args as [| | | | |items|kwargs|]; auto with plain.
  unfold call_kw.
  assert (Hbody : plain
    match bind_params (f_params (function info)) (f_params (function info)) kwargs with
    | Some env => f_body (function info) flag env
    | None =>
        interp_raise I
          (MissingArguments (f_name (function info))
             (map p_name (filter (lacks_value kwargs) (f_params (function info)))))
    end).
  { destruct (bind_params _ _ kwargs) as [env|]; [|apply plain_interp_raise].
    intros e He. eapply Hnd. exact He. }
  destruct (extra_keywords (f_params (function info)) kwargs) as [|[k v] rest];
    [exact Hbody|].
  destruct (existsb is_var_keyword (f_params (function info)));
    [exact Hbody|apply plain_interp_raise].
Qed.

Lemma tools_get_some (key : pyval) (registry : list (string * tool_info))
  (info : tool_info) :
  tools_get I key registry = Ret (Some info) ->
  exists name, assoc_get name registry = Some info.
Proof.
  destruct key; simpl; intros H; try discriminate.
  inversion H. now exists s.
Qed.

Lemma keeps_id_bind {A : Type} (request_id : pyval) (c : outcome A)
  (k : A -> outcome pyval) :
  plain c -> (forall a, c = Ret a -> keeps_id request_id (k a)) ->
  keeps_id request_id (bind c k).
Proof.
  intros Hc Hk. destruct c as [a|e]; simpl.
  - now apply Hk.
  - now apply Hc.
Qed.

Lemma keeps_id_error (request_id : pyval) (code : Z) (message data : string) :
  keeps_id request_id (Ret (error_envelope request_id code message data)).
Proof. unfold keeps_id, error_envelope. apply error_id. Qed.

Lemma keeps_id_success (request_id result : pyval) :
  keeps_id request_id (Ret (_success_response request_id result)).
Proof. unfold keeps_id. apply success_id. Qed.

Variable st : server.
Hypothesis tools_plain :
  forall name info, assoc_get name (tools st) = Some info -> no_decode_error info.

Lemma keeps_id_tools_call (request_id params : pyval) :
  keeps_id request_id (tools_call I request_id params st).
Proof.
  unfold tools_call.
  apply keeps_id_bind; [apply plain_py_get|]. intros tool_name _.
  apply keeps_id_bind; [apply plain_py_get|]. intros tool_arguments _.
  destruct (negb (truthy tool_name)); [apply keeps_id_error|].
  apply keeps_id_bind; [apply plain_tools_get|]. intros [info|] Hfound;
    [|apply keeps_id_error].
  apply tools_get_some in Hfound as [name Hname].
  apply keeps_id_bind; [apply plain_json_dumps|]. intros _ _.
  apply keeps_id_bind; [apply plain_missing_params|]. intros [|m ms] _;
    [|apply keeps_id_error].
  apply keeps_id_bind; [apply plain_call_with; eauto|]. intros result _.
  apply keeps_id_bind; [apply plain_log_result|]. intros _ _.
  apply keeps_id_success.
Qed.

Lemma keeps_id_direct_call (request_id method params : pyval) (st1 : server) :
  tools st1 = tools st ->
  keeps_id request_id (direct_call I request_id method params st1).
Proof.
  intros Ht. unfold direct_call. rewrite Ht.
  apply keeps_id_bind; [apply plain_tools_get|]. intros [info|] Hfound;
    [|apply keeps_id_error].
  apply tools_get_some in Hfound as [name Hname].
  apply keeps_id_bind; [apply plain_json_dumps|]. intros _ _.
  apply keeps_id_bind; [apply plain_missing_params|]. intros [|m ms] _;
    [|apply keeps_id_error].
  apply keeps_id_bind; [apply plain_call_with; eauto|]. intros result _.
  apply keeps_id_bind; [apply plain_log_result|]. intros _ _.
  apply keeps_id_success.
Qed.

Lemma keeps_id_dispatch (request_id method params : pyval) :
  keeps_id request_id (fst (dispatch I request_id method params st)).
Proof.
  unfold dispatch.
  destruct (negb (truthy method)); [apply keeps_id_error|].
  destruct (eq_str method "initialize").
  { unfold initialize.
    destruct (if truthy params then json_dumps I params else Ret tt) eqn:E;
      cbn [fst keeps_id].
    - apply success_id.
    - destruct (truthy params); [|discriminate].
      eapply plain_json_dumps. exact E. }
  destruct (eq_str method "initialized" || eq_str method "notifications/initialized");
    [apply keeps_id_success|].
  destruct (eq_str method "tools/list"); [apply keeps_id_success|].
  destruct (eq_str method "tools/call"); [apply keeps_id_tools_call|].
  cbn [fst]. apply keeps_id_direct_call.
  destruct (initialized st); reflexivity.
Qed.

End IdEcho.

Lemma echoed_request_id (request : pydict) :
  echoed (dict_get "id" PNone request) = request_id_of request.
Proof.
  unfold dict_get, request_id_of.
  destruct (dict_lookup "id" request) as [[]|]; reflexivity.
Qed.

(** C5 (amended). For every received request whose [jsonrpc] member is
    exactly "2.0", on a server whose tools raise no [JSONDecodeError], the
    answer carries the identifier of the request, of whatever type, and
    has no [id] key when the request has none (or [null]); success and
    error answers alike.  (A request that fails the version check is
    answered without an identifier.) *)
Theorem id_echoed_after_version_check (I : interpreter) (request_json : pyval)
  (request : pydict) (st : server) :
  received I request_json request ->
  dict_lookup "jsonrpc" request = Some (PStr "2.0") ->
  (forall name info,
     assoc_get name (tools st) = Some info -> no_decode_error info) ->
  response_member "id" (fst (run I request_json st)) = request_id_of request.
Proof.
  intros Hr Hv Htools.
  rewrite (run_received I _ _ _ Hr Hv), <- echoed_request_id.
  pose proof (keeps_id_dispatch I st Htools (dict_get "id" PNone request)
                (dict_get "method" PNone request)
                (dict_get "params" (PDict []) request)) as Hk.
  destruct (dispatch I _ _ _ st) as [[response|e] st'];
    cbn [fst conclude keeps_id] in *.
  - exact Hk.
  - unfold handle_exception. destruct (exn_cls e); [contradiction|].
    apply error_id.
Qed.

(** ** Schema inference *)

(** The textual branch is the first-match search of the token table. *)
Lemma infer_from_text_first_rule (s : string) :
  infer_from_text s = first_rule s.
Proof.
  unfold infer_from_text, first_rule, text_rules. cbn [find existsb fst].
  repeat rewrite orb_false_r.
  destruct (contains "int" (lower s)); [reflexivity|].
  destruct (contains "float" (lower s) || contains "number" (lower s));
    [reflexivity|].
  destruct (contains "bool" (lower s)); [reflexivity|].
  destruct (contains "list" (lower s) || contains "array" (lower s));
    [reflexivity|].
  destruct (contains "dict" (lower s) || contains "object" (lower s));
    reflexivity.
Qed.

(** A textual annotation gets the type of the first rule that matches
    and "string" when none does. *)
Lemma infer_textual (I : interpreter) (s : string) :
  _infer_param_type_from_annotation I (AnnStr s) =
    Ret (match first_rule s with Some ty => ty | None => "string" end).
Proof.
  simpl. rewrite infer_from_text_first_rule. now destruct (first_rule s).
Qed.

Lemma infer_no_annotation (I : interpreter) :
  _infer_param_type_from_annotation I AnnEmpty = Ret "string"
  /\ _infer_param_type_from_annotation I AnnNone = Ret "string".
Proof. split; reflexivity. Qed.

(** Whatever the inference returns is one of the six schema types, and it
    returns on every annotation that can be hashed. *)
Lemma infer_returns_schema_type (I : interpreter) (ann : annotation) :
  (forall origin, ann <> AnnObject false origin) ->
  exists ty, _infer_param_type_from_annotation I ann = Ret ty
             /\ In ty schema_types.
Proof.
  intros Hh. destruct ann as [| |t|s|[|] [origin|]]; simpl.
  - eexists; split; [reflexivity|simpl; tauto].
  - eexists; split; [reflexivity|simpl; tauto].
  - destruct t; eexists; (split; [reflexivity|simpl; tauto]).
  - unfold infer_from_text.
    repeat match goal with
           | |- context [if ?c then _ else _] => destruct c
           end; eexists; (split; [reflexivity|simpl; tauto]).
  - destruct origin; eexists; (split; [reflexivity|simpl; tauto]).
  - eexists; split; [reflexivity|simpl; tauto].
  - exfalso. now apply (Hh (Some origin)).
  - exfalso. now apply (Hh None).
Qed.

(** C6 (failing input). An annotation that cannot be hashed, such as the
    list display in [def total(items: [int])], matches none of the rules,
    yet the inference does not fall back to "string": the membership test
    against [type_mapping] raises [TypeError], and with it the
    registration of the function. *)
Theorem unhashable_annotation_raises :
  _infer_param_type_from_annotation cpython (AnnObject false None) =
    Raise (mk_exn (OtherException "TypeError") "unhashable type: 'list'")
  /\ add cpython (test_meta "Total" "Sum of items") total
       (new_server "Test Server" "1.0.0") =
     Raise (mk_exn (OtherException "TypeError") "unhashable type: 'list'")
  /\ (forall ty, _infer_param_type_from_annotation cpython (AnnObject false None)
                 <> Ret ty).
Proof.
  repeat split; try reflexivity. intros ty H. discriminate H.
Qed.

(** ** The initialised flag *)

(** C1 (failing input). On a fresh server the tool [probe], reached by
    [tools/call], runs while [initialized] is still false and the flag
    is false afterwards; the direct call of the same tool finds the flag
    set, and leaves it set. *)
Theorem tools_call_runs_tool_uninitialized :
  initialized test_server = false
  /\ run cpython (PDict (call_request (PInt 1) "probe" [])) test_server =
       (_success_response (PInt 1) (content_result cpython (PBool false)),
        test_server)
  /\ initialized
       (snd (run cpython (PDict (call_request (PInt 1) "probe" [])) test_server))
     = false
  /\ run cpython (PDict (direct_request (PInt 2) "probe" [])) test_server =
       (_success_response (PInt 2) (PBool true),
        set_initialized test_server true).
Proof. repeat split; reflexivity. Qed.

(** [tools/call] never writes the flag; a direct call always leaves it
    set. *)
Lemma tools_call_keeps_flag (I : interpreter) (request_id params : pyval)
  (st : server) :
  snd (dispatch I request_id (PStr "tools/call") params st) = st.
Proof. reflexivity. Qed.

Lemma direct_call_sets_flag (I : interpreter) (request_id params : pyval)
  (name : string) (st : server) :
  name <> "" -> ~ In name protocol_methods ->
  initialized (snd (dispatch I request_id (PStr name) params st)) = true.
Proof.
  intros Hne Hnp. rewrite (dispatch_direct I _ _ _ _ Hne Hnp).
  apply initialized_auto.
Qed.

(** ** Exceptions *)

(** An exception of a tool that is no [JSONDecodeError] becomes the
    -32603 answer with the identifier and the message. *)
Lemma tool_exception_reported (I : interpreter) (request_id : pyval)
  (called : outcome pyval) (e : exn) (cls : string) :
  called = Raise e ->
  exn_cls e = OtherException cls ->
  answer request_id (tools_call_outcome I request_id called) =
    error_envelope request_id (-32603) "Internal error"
      ("An error occurred during tool execution: " ++ exn_msg e)
  /\ answer request_id (direct_call_outcome I request_id called) =
       error_envelope request_id (-32603) "Internal error"
         ("An error occurred during tool execution: " ++ exn_msg e).
Proof.
  intros -> Hc. unfold answer, tools_call_outcome, direct_call_outcome. simpl.
  unfold handle_exception. now rewrite Hc.
Qed.

(** C2 (failing input). The tool [parse_config] raises
    [json.JSONDecodeError] on the argument it was given; the request had
    parsed and carried the identifier 7, yet the answer is the parse
    error -32700 "Parse error" / "Invalid JSON" without identifier, not
    -32603 with the identifier and the tool's message. *)
Theorem tool_decode_error_reported_as_parse_error :
  let request :=
    call_request (PInt 7) "parse_config" [("text", PStr "not json")] in
  received cpython (PDict request) request
  /\ request_id_of request = Some (PInt 7)
  /\ call_kw cpython parse_config false [("text", PStr "not json")] =
       Raise (mk_exn JSONDecodeError "Expecting value: line 1 column 1 (char 0)")
  /\ run cpython (PDict request) test_server =
       (error_envelope PNone (-32700) "Parse error" "Invalid JSON", test_server)
  /\ response_member "id" (fst (run cpython (PDict request) test_server)) = None
  /\ error_member "code" (fst (run cpython (PDict request) test_server))
       <> Some (PInt (-32603)).
Proof.
  repeat split; try reflexivity.
  - left. reflexivity.
  - vm_compute. discriminate.
Qed.

(** ** Instances *)

(** Scenario A and scenario D of the specification. *)
Example scenario_A :
  fst (run cpython
         (PDict (call_request (PInt 1) "add" [("x", PInt 10); ("y", PInt 25)]))
         test_server) =
  PDict [("jsonrpc", PStr "2.0");
         ("result",
            PDict [("content",
                    PList [PDict [("type", PStr "text"); ("text", PStr "35")]])]);
         ("id", PInt 1)].
Proof. reflexivity. Qed.

Example scenario_D :
  fst (run cpython
         (PDict (direct_request (PInt 9) "add" [("x", PInt 2); ("y", PInt 3)]))
         test_server) =
  PDict [("jsonrpc", PStr "2.0"); ("result", PInt 5); ("id", PInt 9)].
Proof. reflexivity. Qed.

(** C9 at [{"name": ""}]. *)
Lemma falsy_tool_name_is_missing_witness :
  let request :=
    [("jsonrpc", PStr "2.0"); ("method", PStr "tools/call");
     ("params", PDict [("name", PStr ""); ("arguments", PDict [])]);
     ("id", PInt 1)] in
  run cpython (PDict request) test_server =
    (error_envelope (PInt 1) (-32602) "Invalid params"
       "Missing tool name in tools/call", test_server)
  /\ forall st',
       fst (run cpython (PDict request) st')
       = fst (run cpython (PDict request) test_server).
Proof.
  intros request.
  apply (falsy_tool_name_is_missing cpython (PDict request) request
           [("name", PStr ""); ("arguments", PDict [])] (PStr "") test_server).
  - split; [reflexivity|left; reflexivity].
  - reflexivity.
  - reflexivity.
  - reflexivity.
  - reflexivity.
  - reflexivity.
Defined.



(** C5: the request of [test_invalid_jsonrpc_version] is received, has
    the identifier 1, and is answered without identifier. *)
Lemma invalid_version_drops_id :
  ~ (forall (I : interpreter) (request_json : pyval) (request : pydict)
            (st : server),
       received I request_json request ->
       response_member "id" (fst (run I request_json st)) = request_id_of request).
Proof.
  intros H.
  pose (request := [("jsonrpc", PStr "1.0"); ("method", PStr "test_method");
                    ("params", PDict []); ("id", PInt 1)]).
  specialize (H cpython (PDict request) request test_server
                (conj eq_refl (or_introl eq_refl))).
  vm_compute in H. discriminate H.
Qed.

Lemma plain_server_tools (name : string) (info : tool_info) :
  assoc_get name (tools plain_server) = Some info -> no_decode_error info.
Proof.
  change (tools plain_server)
    with [("add", add_info); ("failing_func", failing_info)].
  cbn [assoc_get]. intros H.
  destruct ("add" =? name); [|destruct ("failing_func" =? name)];
    try discriminate H;
    injection H as <-; intros flag env e He; cbn in He.
  - destruct (dict_lookup "x" env) as [[]|];
      try (injection He as <-; discriminate);
      destruct (dict_lookup "y" env) as [[]|];
      try discriminate He; injection He as <-; discriminate.
  - injection He as <-. discriminate.
Qed.

(** C5 (amended) at a request parsed from text, with a string
    identifier. *)
Lemma id_echoed_after_version_check_witness :
  response_member "id" (fst (run cpython (PStr sample_request_text) plain_server))
    = Some (PStr "list").
Proof.
  apply (id_echoed_after_version_check cpython (PStr sample_request_text)
           sample_request plain_server).
  - split; [reflexivity|right].
    exists sample_request_text. split; reflexivity.
  - reflexivity.
  - exact plain_server_tools.
Defined.

(** C8: a direct call of [add] with the single key [z], which is no
    parameter of [add], is answered with -32602. *)
Lemma extra_key_with_missing_required :
  ~ (forall (I : interpreter) (st : server) (name k : string) (info : tool_info)
            (params : pydict) (request_id : pyval),
       assoc_get name (tools st) = Some info ->
       ~ In name protocol_methods ->
       In k (map fst params) ->
       ~ In k (map p_name (f_params (function info))) ->
       error_member "code"
         (fst (run I (PDict (direct_request request_id name params)) st))
         <> Some (PInt (-32602))).
Proof.
  intros H.
  apply (H cpython test_server "add" "z"
           add_info
           [("z", PInt 1)] (PInt 9)).
  - reflexivity.
  - simpl. intros [E|[E|[E|[E|[E|[]]]]]]; discriminate E.
  - simpl. now left.
  - simpl. intros [E|[E|[]]]; discriminate E.
  - reflexivity.
Qed.

(** C8 (amended) at [add] with [{x: 2, y: 3, z: 4}]. *)
Lemma extra_argument_is_internal_error_witness :
  let params := [("x", PInt 2); ("y", PInt 3); ("z", PInt 4)] in
  exists k',
    In k' (map fst params)
    /\ ~ In k' (keyword_names (f_params add_func))
    /\ run cpython (PDict (direct_request (PInt 9) "add" params)) test_server =
         (error_envelope (PInt 9) (-32603) "Internal error"
            ("An error occurred during tool execution: "
               ++ error_text cpython (UnexpectedKeyword "add" k')),
          set_initialized test_server true)
    /\ error_member "code"
         (fst (run cpython (PDict (direct_request (PInt 9) "add" params))
                 test_server))
       <> Some (PInt (-32602)).
Proof.
  intros params.
  apply (extra_argument_is_internal_error cpython
           (PDict (direct_request (PInt 9) "add" params))
           (direct_request (PInt 9) "add" params) params "add" "z"
           add_info
           test_server).
  - split; [reflexivity|left; reflexivity].
  - reflexivity.
  - reflexivity.
  - discriminate.
  - simpl. intros [E|[E|[E|[E|[E|[]]]]]]; discriminate E.
  - reflexivity.
  - reflexivity.
  - reflexivity.
  - reflexivity.
  - simpl. tauto.
  - simpl. intros [E|[E|[]]]; discriminate E.
Defined.


(** * Further properties of the dispatcher *)

(** ** Well-formed answers *)

Section Answers.

Variable I : interpreter.

Lemma well_formed_success (request_id result : pyval) :
  well_formed (_success_response request_id result).
Proof.
  split.
  - reflexivity.
  - left. exists result. split; [reflexivity|apply success_no_error].
Qed.

Lemma error_no_result (request_id code message data : pyval) :
  response_member "result" (_error_response request_id code message data) = None.
Proof.
  unfold _error_response, response_member. cbn.
  destruct request_id; reflexivity.
Qed.

Lemma well_formed_error (request_id : pyval) (code : Z) (message data : string) :
  In code error_codes ->
  well_formed (error_envelope request_id code message data).
Proof.
  intros Hc. split.
  - reflexivity.
  - right. exists code, message. unfold error_envelope.
    split; [apply error_no_result|].
    split; [apply error_data_iff_truthy|].
    split; [exact Hc|apply error_data_iff_truthy].
Qed.

Lemma well_formed_handled (request_id : pyval) (e : exn) :
  well_formed (handle_exception request_id e).
Proof.
  unfold handle_exception.
  destruct (exn_cls e); apply well_formed_error; simpl; tauto.
Qed.

Lemma answers_well_bind {A : Type} (c : outcome A) (k : A -> outcome pyval) :
  (forall a, answers_well (k a)) -> answers_well (bind c k).
Proof. intros Hk. destruct c as [a|e]; simpl; [apply Hk|exact Logic.I]. Qed.

Lemma answers_well_tools_call (request_id params : pyval) (st : server) :
  answers_well (tools_call I request_id params st).
Proof.
  unfold tools_call.
  apply answers_well_bind. intros tool_name.
  apply answers_well_bind. intros tool_arguments.
  destruct (negb (truthy tool_name)).
  { apply well_formed_error. simpl. tauto. }
  apply answers_well_bind. intros [info|].
  2:{ apply well_formed_error. simpl. tauto. }
  apply answers_well_bind. intros _.
  apply answers_well_bind. intros [|m ms].
  2:{ apply well_formed_error. simpl. tauto. }
  apply answers_well_bind. intros result.
  apply answers_well_bind. intros _.
  apply well_formed_success.
Qed.

Lemma answers_well_direct_call (request_id method params : pyval) (st : server) :
  answers_well (direct_call I request_id method params st).
Proof.
  unfold direct_call.
  apply answers_well_bind. intros [info|].
  2:{ apply well_formed_error. simpl. tauto. }
  apply answers_well_bind. intros _.
  apply answers_well_bind. intros [|m ms].
  2:{ apply well_formed_error. simpl. tauto. }
  apply answers_well_bind. intros result.
  apply answers_well_bind. intros _.
  apply well_formed_success.
Qed.

Lemma answers_well_dispatch (request_id method params : pyval) (st : server) :
  answers_well (fst (dispatch I request_id method params st)).
Proof.
  unfold dispatch.
  destruct (negb (truthy method)).
  { apply well_formed_error. simpl. tauto. }
  destruct (eq_str method "initialize").
  { destruct (initialize I params st) as [[result|e] st']; cbn [fst answers_well].
    - apply well_formed_success.
    - exact Logic.I. }
  destruct (eq_str method "initialized" || eq_str method "notifications/initialized").
  { apply well_formed_success. }
  destruct (eq_str method "tools/list"); [apply well_formed_success|].
  destruct (eq_str method "tools/call"); [apply answers_well_tools_call|].
  apply answers_well_direct_call.
Qed.

(** X1. Whatever [run] is given (text or object, envelope or not) and
    whatever the tools do, its answer is a JSON-RPC answer: the version
    tag "2.0" and either a [result] or an [error] with one of the five
    codes and a text message, never both. *)
Theorem run_answer_well_formed (request_json : pyval) (st : server) :
  well_formed (fst (run I request_json st)).
Proof.
  unfold run.
  destruct (load_request I request_json) as [request|e]; cbn [fst].
  2:{ apply well_formed_handled. }
  destruct request as [| | | | | |request|];
    try apply well_formed_handled.
  destruct (negb (eq_str (dict_get "jsonrpc" PNone request) "2.0")); cbn [fst].
  { apply well_formed_error. simpl. tauto. }
  pose proof (answers_well_dispatch (dict_get "id" PNone request)
                (dict_get "method" PNone request)
                (dict_get "params" (PDict []) request) st) as H.
  destruct (dispatch I _ _ _ st) as [[response|e] st']; cbn [fst] in *.
  - exact H.
  - apply well_formed_handled.
Qed.

End Answers.


(** ** Envelopes *)

Section Envelopes.

Variable I : interpreter.

(** X3. A text and the value it parses to are the same request: when
    [json.loads] fails the answer is -32700 "Parse error" / "Invalid JSON"
    without identifier and the server is untouched; when it yields a
    serialisable value that is not itself a string, [run] on the text is
    [run] on that value. *)
Theorem run_text_as_parsed (s : string) (st : server) :
  (json_loads I s = None ->
     run I (PStr s) st =
       (error_envelope PNone (-32700) "Parse error" "Invalid JSON", st))
  /\ (forall v,
        json_loads I s = Some v ->
        serializable v = true ->
        (forall s', v <> PStr s') ->
        run I (PStr s) st = run I v st).
Proof.
  split.
  - intros Hl. unfold run, load_request. now rewrite Hl.
  - intros v Hl Hs Hn. unfold run.
    assert (Hv : load_request I v = Ret v).
    { unfold load_request, json_dumps.
      destruct v; try (now rewrite Hs). now elim (Hn s0). }
    rewrite Hv. unfold load_request. now rewrite Hl.
Qed.

(** X4. A request that is no dict (a JSON array, number, [null], or a
    text that parses to one) is answered -32603 "Internal error" without
    identifier, and the server is untouched. *)
Theorem run_rejects_non_dict (request_json request : pyval) (st : server) :
  load_request I request_json = Ret request ->
  (forall d, request <> PDict d) ->
  run I request_json st =
    (error_envelope PNone (-32603) "Internal error"
       ("An error occurred during tool execution: "
          ++ error_text I (NoAttributeGet request)), st).
Proof.
  intros Hl Hn. unfold run. rewrite Hl.
  destruct request; try reflexivity. now elim (Hn entries).
Qed.

Variables (request_json : pyval) (request : pydict) (st : server).
Hypothesis Hreceived : received I request_json request.

(** X5. A received request whose [jsonrpc] member is missing or is not
    the string "2.0" is answered -32600 "Invalid Request" without
    identifier, whatever identifier and method it carries, and the server
    is untouched. *)
Theorem run_rejects_version :
  dict_lookup "jsonrpc" request <> Some (PStr "2.0") ->
  run I request_json st =
    (error_envelope PNone (-32600) "Invalid Request"
       "Missing or invalid jsonrpc version", st).
Proof.
  intros Hv. unfold run. rewrite (load_received I _ _ Hreceived).
  assert (E : eq_str (dict_get "jsonrpc" PNone request) "2.0" = false).
  { unfold dict_get. destruct (dict_lookup "jsonrpc" request) as [v|];
      [|reflexivity].
    destruct v; try reflexivity. simpl.
    apply String.eqb_neq. intros ->. now apply Hv. }
  now rewrite E.
Qed.

Hypothesis Hversion : dict_lookup "jsonrpc" request = Some (PStr "2.0").

Let request_id := dict_get "id" PNone request.

(** X6. With the version right, a method that is missing or falsy (an
    empty string, [null], 0) is answered -32600 "Invalid Request" /
    "Missing method", this time with the identifier of the request; the
    server is untouched. *)
Theorem run_rejects_missing_method :
  truthy (dict_get "method" PNone request) = false ->
  run I request_json st =
    (error_envelope request_id (-32600) "Invalid Request" "Missing method", st).
Proof.
  intros Hm. rewrite (run_received I _ _ _ Hreceived Hversion).
  unfold dispatch. now rewrite Hm.
Qed.




End Envelopes.

(** ** Tool requests that do not reach the tool *)

Section ToolEdges.

Variable I : interpreter.
Variables (request_json : pyval) (request : pydict) (st : server).
Hypothesis Hreceived : received I request_json request.
Hypothesis Hversion : dict_lookup "jsonrpc" request = Some (PStr "2.0").

Let request_id := dict_get "id" PNone request.

Lemma handled_plain_code (rid : pyval) (e : exn) :
  exn_cls e <> JSONDecodeError ->
  error_member "code" (handle_exception rid e) = Some (PInt (-32603)).
Proof.
  unfold handle_exception. destruct (exn_cls e); [contradiction|].
  intros _. apply error_envelope_code.
Qed.

Lemma run_tools_call_dispatch :
  dict_lookup "method" request = Some (PStr "tools/call") ->
  run I request_json st =
    (answer request_id
       (tools_call I request_id (dict_get "params" (PDict []) request) st), st).
Proof.
  intros Hm. rewrite (run_received I _ _ _ Hreceived Hversion).
  unfold dict_get at 3. rewrite Hm.
  unfold dispatch. cbn [truthy eq_str String.eqb Ascii.eqb Bool.eqb negb orb].
  unfold conclude, answer. fold request_id.
  destruct (tools_call I request_id _ st); reflexivity.
Qed.

(** X10. A [tools/call] without [params], or whose params have no
    [name] key, is answered -32602 "Invalid params" / "Missing tool name
    in tools/call" with the identifier; the server is untouched. *)
Theorem run_tools_call_without_name (params : pydict) :
  dict_lookup "method" request = Some (PStr "tools/call") ->
  dict_get "params" (PDict []) request = PDict params ->
  dict_lookup "name" params = None ->
  run I request_json st =
    (error_envelope request_id (-32602) "Invalid params"
       "Missing tool name in tools/call", st).
Proof.
  intros Hm Hp Hn. rewrite (run_tools_call_dispatch Hm), Hp.
  unfold tools_call. simpl py_get. unfold dict_get at 1. rewrite Hn. reflexivity.
Qed.

(** X11. A [tools/call] that names a tool the registry does not have is
    answered -32601 "Method not found" with data "Tool '<name>' not found"
    and the identifier, before the arguments are looked at (they may be
    missing or no mapping at all); the server is untouched. *)
Theorem run_tools_call_unknown (params : pydict) (name : string) :
  dict_lookup "method" request = Some (PStr "tools/call") ->
  dict_lookup "params" request = Some (PDict params) ->
  dict_lookup "name" params = Some (PStr name) ->
  name <> "" ->
  assoc_get name (tools st) = None ->
  run I request_json st =
    (error_envelope request_id (-32601) "Method not found"
       ("Tool '" ++ name ++ "' not found"), st).
Proof.
  intros Hm Hp Hn Hne Hf. rewrite (run_tools_call_dispatch Hm).
  unfold dict_get at 1. rewrite Hp.
  unfold tools_call. simpl py_get. simpl bind.
  replace (dict_get "name" PNone params) with (PStr name)
    by (unfold dict_get; now rewrite Hn).
  rewrite (truthy_name _ Hne). simpl. now rewrite Hf.
Qed.

(** X12. A method that is neither a protocol method nor a registered
    tool is answered -32601 "Method not found" with data
    "Tool '<method>' not found", whatever the params are; the server is
    initialised by the attempt all the same. *)
Theorem run_direct_unknown (name : string) :
  dict_lookup "method" request = Some (PStr name) ->
  name <> "" ->
  ~ In name protocol_methods ->
  assoc_get name (tools st) = None ->
  run I request_json st =
    (error_envelope request_id (-32601) "Method not found"
       ("Tool '" ++ name ++ "' not found"),
     if initialized st then st else set_initialized st true)
  /\ initialized (snd (run I request_json st)) = true.
Proof.
  intros Hm Hne Hnp Hf.
  match goal with |- ?eqn /\ _ => assert (Hrun : eqn) end.
  { rewrite (run_received I _ _ _ Hreceived Hversion).
    unfold dict_get at 3. rewrite Hm.
    rewrite (dispatch_direct I _ _ _ _ Hne Hnp).
    unfold direct_call. simpl tools_get. rewrite tools_auto, Hf.
    reflexivity. }
  split; [exact Hrun|]. rewrite Hrun. cbn [snd].
  destruct (initialized st) eqn:E; [exact E|reflexivity].
Qed.

(** X13. A registered tool without required parameters never gets a
    parameter error from [tools/call], whatever the request supplies as
    arguments (nothing, a mapping, or something else). *)
Theorem run_no_required_no_param_error (params : pydict) (name : string)
  (info : tool_info) :
  dict_lookup "method" request = Some (PStr "tools/call") ->
  dict_lookup "params" request = Some (PDict params) ->
  dict_lookup "name" params = Some (PStr name) ->
  name <> "" ->
  assoc_get name (tools st) = Some info ->
  required_params info = [] ->
  error_member "code" (fst (run I request_json st)) <> Some (PInt (-32602)).
Proof.
  intros Hm Hp Hn Hne Hf Hr. rewrite (run_tools_call_dispatch Hm).
  unfold dict_get at 1. rewrite Hp. cbn [fst].
  unfold tools_call. simpl py_get. simpl bind.
  replace (dict_get "name" PNone params) with (PStr name)
    by (unfold dict_get; now rewrite Hn).
  rewrite (truthy_name _ Hne). simpl. rewrite Hf. simpl bind. rewrite Hr.
  destruct (json_dumps I _) as [[]|e] eqn:Ed.
  - simpl bind.
    change (error_member "code"
              (answer request_id
                 (tools_call_outcome I request_id
                    (call_with I (function info) (initialized st)
                       (dict_get "arguments" (PDict []) params))))
            <> Some (PInt (-32602))).
    apply called_no_param_error.
  - simpl. rewrite handled_plain_code; [discriminate|].
    eapply plain_json_dumps. exact Ed.
Qed.

(** X14. A [tools/call] that names a registered tool and brings
    arguments that are no mapping (a list, a string, a number, [null])
    never succeeds and never runs the tool: the answer is an error with
    code -32602 or -32603. *)
Theorem run_non_mapping_arguments (params : pydict) (name : string)
  (info : tool_info) (args : pyval) :
  dict_lookup "method" request = Some (PStr "tools/call") ->
  dict_lookup "params" request = Some (PDict params) ->
  dict_lookup "name" params = Some (PStr name) ->
  name <> "" ->
  assoc_get name (tools st) = Some info ->
  dict_lookup "arguments" params = Some args ->
  (forall d, args <> PDict d) ->
  error_member "code" (fst (run I request_json st)) = Some (PInt (-32602))
  \/ error_member "code" (fst (run I request_json st)) = Some (PInt (-32603)).
Proof.
  intros Hm Hp Hn Hne Hf Ha Hnd.
  remember (fst (run I request_json st)) as response eqn:Er.
  rewrite (run_tools_call_dispatch Hm) in Er.
  unfold dict_get at 1 in Er. rewrite Hp in Er. cbn [fst] in Er.
  unfold tools_call in Er. simpl py_get in Er. simpl bind in Er.
  replace (dict_get "name" PNone params) with (PStr name) in Er
    by (unfold dict_get; now rewrite Hn).
  replace (dict_get "arguments" (PDict []) params) with args in Er
    by (unfold dict_get; now rewrite Ha).
  rewrite (truthy_name _ Hne) in Er. simpl negb in Er. cbn iota in Er.
  simpl tools_get in Er. rewrite Hf in Er. simpl bind in Er.
  destruct (json_dumps I args) as [[]|e] eqn:Ed; simpl bind in Er.
  2:{ right. subst response. simpl. apply handled_plain_code.
      eapply plain_json_dumps. exact Ed. }
  destruct (missing_params I (required_params info) args) as [missing|e] eqn:Em;
    simpl bind in Er.
  2:{ right. subst response. simpl. apply handled_plain_code.
      eapply plain_missing_params. exact Em. }
  destruct missing as [|m ms].
  - right. subst response. unfold call_with.
    destruct args; try (simpl; apply error_envelope_code).
    now elim (Hnd entries).
  - left. subst response. simpl. apply error_envelope_code.
Qed.

End ToolEdges.

(** ** The registry as an ordered map *)

(** X15. Registering under a name the registry does not have puts the
    name last in [list_tools] and its schema last in the [tools/list]
    result; the names registered before keep their places. *)
Theorem register_new_appends (tool_name : string) (info : tool_info)
  (st : server) :
  ~ In tool_name (list_tools st) ->
  let st' := register_tool tool_name info st in
  list_tools st' = (list_tools st ++ [tool_name])%list
  /\ tools_list st' = (tools_list st ++ [tool_schema tool_name info])%list
  /\ initialized st' = initialized st.
Proof.
  intros Hn st'. unfold st', list_tools, tools_list, register_tool. simpl.
  rewrite (assoc_set_keys_absent _ _ _ Hn), !map_app. auto.
Qed.

(** X16. Registration and lookup: the name just registered is found
    with the record just given, every other name is found as before, and
    the registry keeps one entry per name. *)
Theorem register_then_lookup (tool_name other : string) (info : tool_info)
  (st : server) :
  let st' := register_tool tool_name info st in
  assoc_get tool_name (tools st') = Some info
  /\ (other <> tool_name -> assoc_get other (tools st') = assoc_get other (tools st))
  /\ (NoDup (list_tools st) -> NoDup (list_tools st'))
  /\ (In other (list_tools st) -> In other (list_tools st')).
Proof.
  intros st'. unfold st'. repeat split.
  - unfold register_tool. simpl. apply assoc_get_set_same.
  - intros Hne. unfold register_tool. simpl.
    apply assoc_get_set_other. congruence.
  - apply registry_nodup_register.
  - unfold list_tools, register_tool. simpl. intros Hin.
    destruct (in_dec string_dec tool_name (map fst (tools st))) as [H|H].
    + now rewrite assoc_set_keys_present.
    + rewrite assoc_set_keys_absent by assumption.
      rewrite map_app. apply in_or_app. now left.
Qed.

(** ** The decorator in closed form *)

Section Decorator.

Variable I : interpreter.

Lemma infer_hashable (ann : annotation) :
  hashable_annotation ann = true ->
  exists ty, _infer_param_type_from_annotation I ann = Ret ty
             /\ In ty schema_types.
Proof.
  intros H. apply infer_returns_schema_type.
  intros origin ->. discriminate H.
Qed.

Lemma schema_type_of_hashable (p : parameter) :
  hashable_annotation (p_annotation p) = true ->
  _infer_param_type_from_annotation I (p_annotation p) = Ret (schema_type_of I p)
  /\ In (schema_type_of I p) schema_types.
Proof.
  intros H. unfold schema_type_of.
  destruct (infer_hashable _ H) as [ty [E Hin]]. rewrite E. auto.
Qed.

Lemma add_loop_closed (func : pyfunc) (params : list parameter) :
  forall required props,
  forallb (fun p => hashable_annotation (p_annotation p)) params = true ->
  NoDup (map fst props ++ map p_name params) ->
  add_loop I func params required props =
    Ret ((required ++ map p_name (filter has_no_default params))%list,
         (props ++ map (property_entry I func) params)%list).
Proof.
  induction params as [|p rest IH]; intros required props Hh Hnd.
  - simpl. now rewrite !app_nil_r.
  - simpl in Hh. apply andb_prop in Hh as [Hp Hrest].
    simpl. destruct (schema_type_of_hashable p Hp) as [E _]. rewrite E.
    simpl bind.
    assert (Hnin : ~ In (p_name p) (map fst props)).
    { intros Hin. apply NoDup_remove_2 in Hnd. apply Hnd.
      apply in_or_app. now left. }
    rewrite (assoc_set_keys_absent _ _ _ Hnin).
    rewrite IH.
    + f_equal. f_equal.
      * unfold has_no_default at 2. destruct (p_default p); simpl;
          [reflexivity|now rewrite <- app_assoc].
      * now rewrite <- app_assoc.
    + exact Hrest.
    + rewrite map_app. simpl. rewrite <- app_assoc. exact Hnd.
Qed.

(** X17. The decorator in closed form.  When every annotation can be
    hashed (parameter names being distinct, as in any signature),
    [@server.add] registers, under the function's [__name__], a record
    with the function itself, the [Title] and [Description] of the given
    dict ([None] when missing), the names of the parameters without
    default in declared order as [required_params], and one property per
    parameter in declared order. *)
Theorem add_closed_form (meta : pydict) (func : pyfunc) (st : server) :
  forallb (fun p => hashable_annotation (p_annotation p)) (f_params func) = true ->
  NoDup (map p_name (f_params func)) ->
  add I meta func st =
    Ret (register_tool (f_name func)
           {| title := dict_get "Title" PNone meta;
              description := dict_get "Description" PNone meta;
              function := func;
              required_params := declared_required func;
              properties := map (property_entry I func) (f_params func) |}
           st).
Proof.
  intros Hh Hnd. unfold add.
  rewrite (add_loop_closed func (f_params func) [] [] Hh Hnd). reflexivity.
Qed.

(** X18. The record the decorator stores is consistent: every required
    name has a property, every parameter has a property whose type is
    one of the six schema types, and a parameter the docstring says
    nothing about is described as "Parameter <name>". *)
Theorem add_record_consistent (meta : pydict) (func : pyfunc) (st st' : server) :
  forallb (fun p => hashable_annotation (p_annotation p)) (f_params func) = true ->
  NoDup (map p_name (f_params func)) ->
  add I meta func st = Ret st' ->
  exists info,
    assoc_get (f_name func) (tools st') = Some info
    /\ (forall r, In r (required_params info) -> dict_has r (properties info) = true)
    /\ (forall p, In p (f_params func) ->
          exists ty text,
            dict_lookup (p_name p) (properties info) =
              Some (PDict [("type", PStr ty); ("description", PStr text)])
            /\ In ty schema_types
            /\ (f_doc func = None -> text = "Parameter " ++ p_name p)).
Proof.
  intros Hh Hnd Hadd. rewrite (add_closed_form meta func st Hh Hnd) in Hadd.
  injection Hadd as <-. eexists. split.
  { unfold register_tool. simpl. apply assoc_get_set_same. }
  simpl.
  assert (Hlook : forall p, In p (f_params func) ->
            dict_lookup (p_name p) (map (property_entry I func) (f_params func))
            = Some (snd (property_entry I func p))).
  { clear Hh. revert Hnd.
    induction (f_params func) as [|q qs IH]; intros Hnd p Hin;
      [contradiction|].
    simpl in Hnd. inversion Hnd as [|? ? Hq Hqs]; subst.
    simpl. destruct (p_name q =? p_name p) eqn:E.
    - destruct Hin as [->|Hin]; [reflexivity|].
      apply String.eqb_eq in E. exfalso. apply Hq. rewrite E.
      now apply in_map.
    - destruct Hin as [->|Hin]; [now rewrite String.eqb_refl in E|].
      apply IH; assumption. }
  split.
  - intros r Hr. unfold declared_required in Hr.
    apply in_map_iff in Hr as [p [<- Hp]]. apply filter_In in Hp as [Hp _].
    unfold dict_has. now rewrite (Hlook p Hp).
  - intros p Hp. exists (schema_type_of I p), (param_description func (p_name p)).
    split; [now rewrite (Hlook p Hp)|]. split.
    + apply schema_type_of_hashable.
      rewrite forallb_forall in Hh. now apply Hh.
    + intros Hd. unfold param_description. now rewrite Hd.
Qed.

End Decorator.

(** ** Binding after the required-parameter check *)

Section Binding.

Variable I : interpreter.

Lemma filter_all {A : Type} (f : A -> bool) (l : list A) :
  forallb f l = true -> filter f l = l.
Proof.
  induction l as [|a l IH]; simpl; [reflexivity|].
  intros H. apply andb_prop in H as [Ha Hl]. rewrite Ha. f_equal. now apply IH.
Qed.

Lemma filter_nil {A : Type} (f : A -> bool) (l : list A) :
  filter f l = [] -> forall x, In x l -> f x = false.
Proof.
  induction l as [|a l IH]; simpl; [contradiction|].
  destruct (f a) eqn:E; [discriminate|].
  intros H x [<-|Hx]; [exact E|now apply IH].
Qed.

Lemma dict_has_In (k : string) (d : pydict) :
  dict_has k d = true -> In k (map fst d).
Proof.
  unfold dict_has. induction d as [|[k' v] d IH]; simpl; [discriminate|].
  destruct (k' =? k) eqn:E.
  - apply String.eqb_eq in E. now left.
  - intros H. right. now apply IH.
Qed.

Lemma omitted_nil_required (f : pyfunc) (kwargs : pydict) (p : parameter) :
  omitted kwargs (declared_required f) = [] ->
  In p (f_params f) -> p_default p = None ->
  dict_has (p_name p) kwargs = true.
Proof.
  intros Ho Hp Hd. unfold omitted in Ho.
  assert (H : negb (dict_has (p_name p) kwargs) = false).
  { apply (filter_nil _ _ Ho (p_name p)).
    unfold declared_required. apply in_map. apply filter_In.
    split; [exact Hp|]. unfold has_no_default. now rewrite Hd. }
  now destruct (dict_has (p_name p) kwargs).
Qed.

Lemma bind_params_keywords (all params : list parameter) (kwargs : pydict) :
  (forall p, In p params ->
     accepts_keyword p = true /\
     (p_default p = None -> dict_has (p_name p) kwargs = true)) ->
  bind_params all params kwargs = Some (bound_env kwargs params).
Proof.
  induction params as [|p rest IH]; intros H; [reflexivity|].
  destruct (H p (or_introl eq_refl)) as [Hk Hd].
  simpl. rewrite IH by (intros q Hq; apply H; now right).
  unfold accepts_keyword in Hk. unfold bound_value, dict_has in *.
  destruct (p_kind p); try discriminate Hk;
    destruct (dict_lookup (p_name p) kwargs); try reflexivity;
    destruct (p_default p); try reflexivity;
    discriminate (Hd eq_refl).
Qed.

Lemma filter_none {A : Type} (f : A -> bool) (l : list A) :
  (forall x, In x l -> f x = false) -> filter f l = [].
Proof.
  induction l as [|a l IH]; simpl; [reflexivity|].
  intros H. rewrite (H a (or_introl eq_refl)). apply IH.
  intros x Hx. apply H. now right.
Qed.

(** X19. The dispatcher's check is all the binding needs.  For a
    function whose parameters can all be passed by keyword, keywords
    that name only declared parameters and leave no parameter without
    default out always bind: the body runs with every parameter bound to
    its keyword or else its default, in declared order. *)
Theorem check_suffices_for_binding (f : pyfunc) (flag : bool) (kwargs : pydict) :
  forallb accepts_keyword (f_params f) = true ->
  (forall k, In k (map fst kwargs) -> In k (map p_name (f_params f))) ->
  omitted kwargs (declared_required f) = [] ->
  call_kw I f flag kwargs = f_body f flag (bound_env kwargs (f_params f)).
Proof.
  intros Hall Hkeys Hom. unfold call_kw.
  assert (Hx : extra_keywords (f_params f) kwargs = []).
  { unfold extra_keywords, keyword_names. rewrite (filter_all _ _ Hall).
    apply filter_none. intros [k v] Hin.
    apply (in_map fst) in Hin. apply Hkeys in Hin.
    apply mem_str_In in Hin. cbn [fst] in *. now rewrite Hin. }
  rewrite Hx.
  rewrite bind_params_keywords; [reflexivity|].
  intros p Hp. split.
  - rewrite forallb_forall in Hall. now apply Hall.
  - intros Hd. now apply (omitted_nil_required f).
Qed.

Lemma nodup_map_injective {A B : Type} (g : A -> B) (l : list A) (a b : A) :
  NoDup (map g l) -> In a l -> In b l -> g a = g b -> a = b.
Proof.
  induction l as [|x l IH]; simpl; [contradiction|].
  intros Hnd Ha Hb Hg. inversion Hnd as [|? ? Hx Hl]; subst.
  destruct Ha as [->|Ha], Hb as [->|Hb]; try reflexivity.
  - exfalso. apply Hx. rewrite Hg. now apply in_map.
  - exfalso. apply Hx. rewrite <- Hg. now apply in_map.
  - now apply IH.
Qed.

(** X20. A function declared with a catch-all tuple of positional
    arguments (and no catch-all dict of keywords) cannot be called
    through [tools/call] at all: the parameter counts as required
    because it has no default, and a request that supplies it as a
    keyword fails to bind.  Whatever mapping the arguments are, the
    answer is an error with code -32602 or -32603. *)
Theorem var_positional_uncallable (request_json : pyval)
  (request params args meta props : pydict) (func : pyfunc) (p : parameter)
  (st : server) :
  received I request_json request ->
  dict_lookup "jsonrpc" request = Some (PStr "2.0") ->
  dict_lookup "method" request = Some (PStr "tools/call") ->
  dict_lookup "params" request = Some (PDict params) ->
  dict_lookup "name" params = Some (PStr (f_name func)) ->
  f_name func <> "" ->
  dict_get "arguments" (PDict []) params = PDict args ->
  assoc_get (f_name func) (tools st) =
    Some (build_tool_info meta func (declared_required func) props) ->
  In p (f_params func) ->
  p_kind p = VAR_POSITIONAL ->
  p_default p = None ->
  NoDup (map p_name (f_params func)) ->
  existsb is_var_keyword (f_params func) = false ->
  error_member "code" (fst (run I request_json st)) = Some (PInt (-32602))
  \/ error_member "code" (fst (run I request_json st)) = Some (PInt (-32603)).
Proof.
  intros Hr Hv Hm Hp Hn Hne Ha Hf Hin Hk Hd Hnd Hvk.
  remember (fst (run I request_json st)) as response eqn:Er.
  rewrite (run_tools_call I _ _ st Hr Hv _ _ _ _ Hm Hp Hn Hne Ha Hf) in Er.
  cbn [fst required_params build_tool_info function] in Er.
  destruct (omitted args (declared_required func)) as [|m ms] eqn:Ho.
  - right.
    assert (Hhas : In (p_name p) (map fst args)).
    { apply dict_has_In. now apply (omitted_nil_required func). }
    assert (Hnk : ~ In (p_name p) (keyword_names (f_params func))).
    { unfold keyword_names. intros Hc. apply in_map_iff in Hc as [q [Hq Hqin]].
      apply filter_In in Hqin as [Hqin Hacc].
      assert (q = p) by (eapply nodup_map_injective; eassumption).
      subst q. unfold accepts_keyword in Hacc. rewrite Hk in Hacc. discriminate. }
    destruct (call_kw_unexpected I func (initialized st) args _ Hhas Hnk Hvk)
      as (k' & _ & _ & Hcall).
    rewrite Hcall in Er. subst response. simpl. apply error_envelope_code.
  - left. subst response. simpl. apply error_envelope_code.
Qed.

End Binding.

(** ** Text helpers *)

Lemma prefix_spec (n h : string) :
  prefix n h = true <-> exists b, h = n ++ b.
Proof.
  revert h. induction n as [|c n IH]; intros h; simpl.
  - split; [intros _; now exists h|intros _; now destruct h].
  - destruct h as [|c' h]; simpl.
    + split; [discriminate|intros [b Hb]; discriminate].
    + destruct (Ascii.ascii_dec c c') as [->|Hne].
      * rewrite IH. split; intros [b Hb]; exists b; [now subst|now injection Hb].
      * split; [discriminate|]. intros [b Hb]. injection Hb as Hc _. congruence.
Qed.

(** X21. [contains] is Python's substring test: it holds exactly when
    the text is the needle with something before and something after
    it. *)
Theorem contains_spec (needle hay : string) :
  contains needle hay = true <-> exists a b, hay = a ++ needle ++ b.
Proof.
  induction hay as [|c hay IH]; cbn [contains].
  - rewrite orb_false_r, prefix_spec. split.
    + intros [b Hb]. now exists "", b.
    + intros [a [b H]]. destruct a; [now exists b|discriminate].
  - rewrite orb_true_iff, prefix_spec, IH. split.
    + intros [[b Hb]|[a [b Hab]]].
      * now exists "", b.
      * exists (String c a), b. simpl. now rewrite Hab.
    + intros [a [b Hab]]. destruct a as [|c' a]; simpl in Hab.
      * left. now exists b.
      * right. injection Hab as _ Hab. now exists a, b.
Qed.

Lemma lower_app (a b : string) : lower (a ++ b) = lower a ++ lower b.
Proof. induction a as [|c a IH]; simpl; [reflexivity|now rewrite IH]. Qed.

(** X22. The token [int] wins over everything else in a textual
    annotation, in any letter case and wherever it stands: a text such as
    "List[int]" or "Optional[INT]" is inferred as "integer", not as the
    container it names. *)
Theorem text_with_int_is_integer (I : interpreter) (a t b : string) :
  lower t = "int" ->
  _infer_param_type_from_annotation I (AnnStr (a ++ t ++ b)) = Ret "integer".
Proof.
  intros Ht. simpl. unfold infer_from_text.
  assert (H : contains "int" (lower (a ++ t ++ b)) = true).
  { apply contains_spec. exists (lower a), (lower b).
    now rewrite !lower_app, Ht. }
  now rewrite H.
Qed.

Lemma has_char_app (f : ascii -> bool) (a b : string) :
  has_char f (a ++ b) = has_char f a || has_char f b.
Proof.
  induction a as [|c a IH]; simpl; [reflexivity|].
  now rewrite IH, orb_assoc.
Qed.

(** X23. Splitting a text into lines loses nothing: the lines joined by
    newlines are the text again, there is always at least one line, and
    no line holds a newline. *)
Theorem split_lines_round_trip (s : string) :
  String.concat newline (split_lines s) = s
  /\ split_lines s <> []
  /\ Forall (fun l => has_char is_newline l = false) (split_lines s).
Proof.
  induction s as [|c s [IH1 [IH2 IH3]]].
  - repeat split; [discriminate|now repeat constructor].
  - simpl. unfold is_newline in *.
    destruct (nat_of_ascii c =? 10)%nat eqn:E.
    + assert (Hc : c = "010"%char).
      { apply Nat.eqb_eq in E. rewrite <- (ascii_nat_embedding c), E. reflexivity. }
      repeat split.
      * destruct (split_lines s) as [|l ls] eqn:El; [contradiction|].
        simpl in *. now rewrite IH1, Hc.
      * discriminate.
      * constructor; [reflexivity|exact IH3].
    + destruct (split_lines s) as [|l ls] eqn:El; [contradiction|].
      repeat split.
      * simpl in *. destruct ls; simpl in *; now rewrite <- IH1.
      * discriminate.
      * inversion IH3; subst. constructor; [|assumption].
        simpl. unfold is_newline. now rewrite E.
Qed.

Lemma lower_ascii_not_upper (c : ascii) : is_upper (lower_ascii c) = false.
Proof.
  destruct c as [[] [] [] [] [] [] [] []]; reflexivity.
Qed.

Lemma lower_no_upper (s : string) : has_char is_upper (lower s) = false.
Proof.
  induction s as [|c s IH]; simpl; [reflexivity|].
  now rewrite lower_ascii_not_upper, IH.
Qed.

Lemma contains_lower_no_upper (needle line : string) :
  has_char is_upper needle = true -> contains needle (lower line) = false.
Proof.
  intros Hu. destruct (contains needle (lower line)) eqn:E; [|reflexivity].
  apply contains_spec in E as [a [b Hab]].
  pose proof (lower_no_upper line) as Hl. rewrite Hab in Hl.
  rewrite !has_char_app, Hu in Hl. rewrite orb_true_r in Hl. discriminate.
Qed.

Lemma scan_doc_cons (name default l : string) (rest : list string) :
  scan_doc name default (l :: rest) =
    if line_names name (strip l) then
      match after_colon (strip l) with
      | Some text => strip text
      | None => default
      end
    else if line_mentions name (strip l) then
      match after_colon (strip l) with
      | Some text => strip text
      | None => default
      end
    else scan_doc name default rest.
Proof. reflexivity. Qed.

(** X24. On a docstring of ASCII lines, the second docstring heuristic
    compares the parameter name as written with the lowered line, so it
    never fires for a name with a capital letter: such a parameter gets
    its description only from a line that starts with "<name>:" or
    "- <name>:", and the default "Parameter <name>" otherwise. *)
Theorem capital_name_needs_prefix_line (name default : string)
  (doc_lines : list string) :
  has_char is_upper name = true ->
  (forall l, In l doc_lines -> ascii_text l = true) ->
  (forall l, In l doc_lines -> line_mentions name (strip l) = false)
  /\ ((forall l, In l doc_lines -> line_names name (strip l) = false) ->
      scan_doc name default doc_lines = default).
Proof.
  intros Hu _.
  assert (Hm : forall line, line_mentions name line = false).
  { intros line. unfold line_mentions.
    rewrite !contains_lower_no_upper; [reflexivity| |];
      rewrite has_char_app, Hu; apply orb_true_r. }
  split; [intros l _; apply Hm|].
  induction doc_lines as [|l rest IH]; intros Hn; [reflexivity|].
  rewrite scan_doc_cons, (Hn l (or_introl eq_refl)), (Hm (strip l)).
  apply IH. intros x Hx. apply Hn. now right.
Qed.

Lemma string_app_assoc (a b c : string) : (a ++ b) ++ c = a ++ b ++ c.
Proof. induction a as [|x a IH]; simpl; [reflexivity|now rewrite IH]. Qed.

Lemma after_colon_app (name text : string) :
  has_char is_colon name = false ->
  after_colon (name ++ ":" ++ text) = Some text.
Proof.
  induction name as [|c name IH]; simpl; [reflexivity|].
  unfold is_colon at 1. destruct (c =? ":")%char; [discriminate|]. exact IH.
Qed.

(** X25. On ASCII docstring lines, a line of the form "<name>: <text>"
    gives the parameter the description <text>, stripped, provided no
    earlier line names or mentions the parameter; lines about other
    parameters before it do not matter, nor do the lines after it. *)
Theorem description_from_named_line (name default text line : string)
  (before rest : list string) :
  has_char is_colon name = false ->
  (forall l, In l before -> ascii_text l = true) ->
  ascii_text line = true ->
  (forall l, In l before ->
     line_names name (strip l) = false /\ line_mentions name (strip l) = false) ->
  strip line = name ++ ":" ++ text ->
  scan_doc name default (before ++ line :: rest) = strip text.
Proof.
  intros Hc _ _ Hb Hl.
  induction before as [|l before IH]; cbn [app]; rewrite scan_doc_cons.
  - rewrite Hl.
    assert (Hp : line_names name (name ++ ":" ++ text) = true).
    { unfold line_names. apply orb_true_iff. left.
      apply prefix_spec. exists text. now rewrite string_app_assoc. }
    now rewrite Hp, (after_colon_app _ _ Hc).
  - destruct (Hb l (or_introl eq_refl)) as [H1 H2]. rewrite H1, H2.
    apply IH. intros x Hx. apply Hb. now right.
Qed.

(** ** Logging control *)

Lemma getLogger_set (name : string) (l : logger) (world : logging_world) :
  getLogger name (assoc_set name l world) = l.
Proof. unfold getLogger. now rewrite assoc_get_set_same. Qed.

Lemma getLogger_set_other (name other : string) (l : logger)
  (world : logging_world) :
  name <> other ->
  getLogger other (assoc_set name l world) = getLogger other world.
Proof. intros H. unfold getLogger. now rewrite assoc_get_set_other. Qed.

(** X26. After [enable_logs(False)] the instance's flag is off, its
    logger stands above [CRITICAL], holds no stream handler but at least
    one handler, and keeps every handler that is no stream handler, in
    order; [set_log_level] then changes nothing. *)
Theorem enable_logs_off (self : mcp_logging) (log_level l : Z)
  (world : logging_world) :
  let r := enable_logs self false log_level world in
  let lg := getLogger (logger_name self) (snd r) in
  enable_logging (fst r) = false
  /\ level lg = (CRITICAL + 1)%Z
  /\ existsb is_stream (handlers lg) = false
  /\ handlers lg <> []
  /\ filter (fun h => negb (is_stream h)) (handlers lg)
     = (match filter (fun h => negb (is_stream h))
                     (handlers (getLogger (logger_name self) world)) with
        | [] => [NullHandler]
        | kept => kept
        end)
  /\ set_log_level (fst r) l (snd r) = snd r.
Proof.
  intros r lg. unfold lg, r, enable_logs, set_log_level. cbn [fst snd enable_logging].
  unfold set_handlers, setLevel, addHandler, set_handlers.
  rewrite !getLogger_set. cbn [handlers level].
  set (old := handlers (getLogger (logger_name self) world)).
  assert (Hf : forall hs, existsb is_stream (filter (fun h => negb (is_stream h)) hs)
                          = false).
  { induction hs as [|h hs IH]; [reflexivity|]. simpl.
    destruct (is_stream h) eqn:E; simpl; [exact IH|now rewrite E]. }
  assert (Hff : forall hs, filter (fun h => negb (is_stream h))
                             (filter (fun h => negb (is_stream h)) hs)
                           = filter (fun h => negb (is_stream h)) hs).
  { induction hs as [|h hs IH]; [reflexivity|]. simpl.
    destruct (is_stream h) eqn:E; simpl; [exact IH|]. rewrite E. simpl.
    now rewrite IH. }
  destruct (filter (fun h => negb (is_stream h)) old) as [|k ks] eqn:Ek.
  - rewrite !getLogger_set. cbn. repeat split; discriminate.
  - rewrite !getLogger_set. cbn [handlers level].
    repeat split.
    + rewrite <- Ek. apply Hf.
    + discriminate.
    + rewrite <- Ek. apply Hff.
Qed.

(** X27. After [enable_logs(True, level)] the flag is on, the logger
    has that level and a stream handler; the handlers it had are all
    kept, and one is added only if none of them was a stream handler, so
    that enabling twice is enabling once. *)
Theorem enable_logs_on (self : mcp_logging) (log_level : Z)
  (world : logging_world) :
  let r := enable_logs self true log_level world in
  let lg := getLogger (logger_name self) (snd r) in
  let old := handlers (getLogger (logger_name self) world) in
  enable_logging (fst r) = true
  /\ level lg = log_level
  /\ existsb is_stream (handlers lg) = true
  /\ handlers lg = (if existsb is_stream old then old
                    else old ++ [StreamHandler])%list
  /\ getLogger (logger_name self)
       (snd (enable_logs (fst r) true log_level (snd r))) = lg.
Proof.
  intros r lg old. unfold lg, r, enable_logs. cbn [fst snd logger_name].
  unfold setLevel, addHandler, set_handlers.
  rewrite !getLogger_set. cbn [handlers level]. fold old.
  destruct (existsb is_stream old) eqn:E.
  - rewrite !getLogger_set. cbn [handlers level]. rewrite E.
    rewrite !getLogger_set. repeat split; auto.
  - rewrite !getLogger_set. cbn [handlers level].
    assert (E' : existsb is_stream (old ++ [StreamHandler]) = true).
    { rewrite existsb_app. simpl. apply orb_true_r. }
    rewrite E'. rewrite !getLogger_set. repeat split; auto.
Qed.

(** X28. Loggers are shared by name, and the name is built from the
    server's name with spaces turned into underscores.  Two servers
    whose names agree up to that (the same name, or "My Server" and
    "My_Server") use one logger: constructing the second with logging
    disabled puts that logger above [CRITICAL], which silences the first
    although its own flag is still on. *)
Theorem servers_share_logger (name1 name2 : string) (log_level1 log_level2 : Z)
  (world : logging_world) :
  replace_spaces name1 = replace_spaces name2 ->
  let r1 := init_logging name1 log_level1 true world in
  let r2 := init_logging name2 log_level2 false (snd r1) in
  logger_name (fst r1) = logger_name (fst r2)
  /\ enable_logging (fst r1) = true
  /\ level (getLogger (logger_name (fst r1)) (snd r1)) = log_level1
  /\ level (getLogger (logger_name (fst r1)) (snd r2)) = (CRITICAL + 1)%Z
  /\ handlers (getLogger (logger_name (fst r1)) (snd r2))
     = handlers (getLogger (logger_name (fst r1)) (snd r1))
  /\ handlers (getLogger (logger_name (fst r1)) (snd r1)) <> [].
Proof.
  intros Hn r1 r2. unfold r2, r1, init_logging. cbn [fst snd logger_name enable_logging].
  rewrite <- Hn. set (lname := "MCP." ++ replace_spaces name1).
  unfold setLevel, addHandler, set_handlers.
  rewrite !getLogger_set. cbn [handlers level].
  destruct (handlers (getLogger lname world)) as [|h hs] eqn:E.
  - rewrite !getLogger_set. cbn [handlers level app].
    rewrite !getLogger_set. cbn [handlers level].
    repeat split; discriminate.
  - rewrite !getLogger_set. cbn [handlers level].
    rewrite !getLogger_set. cbn [handlers level].
    repeat split; discriminate.
Qed.

(** ** The Lambda adapter *)

Section Lambda.

Variable I : interpreter.
Variable R : adapter_runtime.

Lemma dict_has_lookup (k : string) (d : pydict) (v : pyval) :
  dict_lookup k d = Some v -> dict_has k d = true.
Proof. unfold dict_has. now intros ->. Qed.

(** X29. An API Gateway event, a serialisable dict whose [body] is a
    text: when the text is not JSON the handler returns status 400 with a
    parse-error body and the server is untouched; when it parses, the
    handler runs the parsed request and returns status 200 with the CORS
    headers and the serialised answer as body, whether that answer is a
    result or a JSON-RPC error. *)
Theorem lambda_gateway_event (event : pydict) (text : string) (st : server) :
  serializable (PDict event) = true ->
  dict_lookup "body" event = Some (PStr text) ->
  (json_loads I text = None ->
     lambda_handler I R (PDict event) st =
       (Ret (PDict
          [("statusCode", PInt 400);
           ("body",
            PStr (dumps_text R
              (PDict [("jsonrpc", PStr "2.0");
                      ("error", PDict [("code", PInt (-32700));
                                       ("message", PStr "Parse error");
                                       ("data", PStr (json_error_text I text))]);
                      ("id", PNone)])))]), st))
  /\ (forall request,
        json_loads I text = Some request ->
        serializable request = true ->
        serializable (fst (run I request st)) = true ->
        lambda_handler I R (PDict event) st =
          (Ret (PDict [("statusCode", PInt 200);
                       ("headers", cors_headers);
                       ("body", PStr (dumps_text R (fst (run I request st))))]),
           snd (run I request st))).
Proof.
  intros Hs Hb. split.
  - intros Hl. unfold lambda_handler, json_dumps. rewrite Hs.
    unfold event_request. simpl py_in. rewrite (dict_has_lookup _ _ _ Hb).
    cbn [bind]. unfold getitem. rewrite Hb. cbn [bind].
    unfold loads_value. rewrite Hl. reflexivity.
  - intros request Hl Hsr Hresp. unfold lambda_handler, json_dumps. rewrite Hs.
    unfold event_request. simpl py_in. rewrite (dict_has_lookup _ _ _ Hb).
    cbn [bind]. unfold getitem. rewrite Hb. cbn [bind].
    unfold loads_value. rewrite Hl. cbn [bind].
    rewrite Hsr. cbn [bind].
    destruct (run I request st) as [response st'] eqn:Er. cbn [fst snd] in *.
    unfold dumps_value, json_dumps. rewrite Hresp. reflexivity.
Qed.

(** X30. A direct invocation, a serialisable dict with neither [body]
    nor [Records]: the handler is [run] on the event itself, answer and
    server alike. *)
Theorem lambda_direct_invocation (event : pydict) (st : server) :
  serializable (PDict event) = true ->
  dict_lookup "body" event = None ->
  dict_lookup "Records" event = None ->
  serializable (fst (run I (PDict event) st)) = true ->
  lambda_handler I R (PDict event) st =
    (Ret (fst (run I (PDict event) st)), snd (run I (PDict event) st)).
Proof.
  intros Hs Hb Hr Hresp.
  assert (Hd : json_dumps I (PDict event) = Ret tt).
  { unfold json_dumps. now rewrite Hs. }
  unfold lambda_handler. rewrite Hd.
  unfold event_request. cbn [py_in]. unfold dict_has. rewrite Hb, Hr.
  cbn [bind]. rewrite Hd. cbn [bind].
  destruct (run I (PDict event) st) as [response st'] eqn:Er. cbn [fst snd] in *.
  unfold json_dumps. now rewrite Hresp.
Qed.

End Lambda.

(** ** Instances of the further properties *)

Ltac as_received := split; [reflexivity|left; reflexivity].

Lemma run_rejects_non_dict_witness :
  run cpython (PList [PInt 1]) test_server =
    (error_envelope PNone (-32603) "Internal error"
       "An error occurred during tool execution: 'list' object has no attribute 'get'",
     test_server).
Proof.
  apply (run_rejects_non_dict cpython (PList [PInt 1]) (PList [PInt 1]) test_server).
  - reflexivity.
  - discriminate.
Defined.

Lemma run_rejects_version_witness :
  run cpython (PDict no_version_request) test_server =
    (error_envelope PNone (-32600) "Invalid Request"
       "Missing or invalid jsonrpc version", test_server).
Proof.
  apply (run_rejects_version cpython (PDict no_version_request)
           no_version_request test_server).
  - as_received.
  - discriminate.
Defined.

Lemma run_rejects_missing_method_witness :
  run cpython (PDict no_method_request) test_server =
    (error_envelope (PInt 1) (-32600) "Invalid Request" "Missing method",
     test_server).
Proof.
  apply (run_rejects_missing_method cpython (PDict no_method_request)
           no_method_request test_server).
  - as_received.
  - reflexivity.
  - reflexivity.
Defined.




Lemma run_tools_call_without_name_witness :
  run cpython (PDict no_name_request) test_server =
    (error_envelope (PInt 1) (-32602) "Invalid params"
       "Missing tool name in tools/call", test_server).
Proof.
  apply (run_tools_call_without_name cpython (PDict no_name_request)
           no_name_request test_server ltac:(as_received) eq_refl
           [("arguments", PDict [])]); reflexivity.
Defined.

Lemma run_tools_call_unknown_witness :
  run cpython (PDict (call_request (PInt 1) "nonexistent_tool" [])) test_server =
    (error_envelope (PInt 1) (-32601) "Method not found"
       "Tool 'nonexistent_tool' not found", test_server).
Proof.
  apply (run_tools_call_unknown cpython
           (PDict (call_request (PInt 1) "nonexistent_tool" []))
           (call_request (PInt 1) "nonexistent_tool" []) test_server
           ltac:(as_received) eq_refl
           [("name", PStr "nonexistent_tool"); ("arguments", PDict [])]
           "nonexistent_tool"); try reflexivity.
  discriminate.
Defined.

Lemma run_direct_unknown_witness :
  run cpython (PDict (direct_request (PInt 1) "unknown_method" [])) test_server =
    (error_envelope (PInt 1) (-32601) "Method not found"
       "Tool 'unknown_method' not found", set_initialized test_server true)
  /\ initialized
       (snd (run cpython (PDict (direct_request (PInt 1) "unknown_method" []))
               test_server)) = true.
Proof.
  apply (run_direct_unknown cpython
           (PDict (direct_request (PInt 1) "unknown_method" []))
           (direct_request (PInt 1) "unknown_method" []) test_server
           ltac:(as_received) eq_refl "unknown_method").
  - reflexivity.
  - discriminate.
  - simpl. intros [E|[E|[E|[E|[E|[]]]]]]; discriminate E.
  - reflexivity.
Defined.

Lemma run_no_required_no_param_error_witness :
  error_member "code" (fst (run cpython (PDict null_arguments_request) test_server))
    <> Some (PInt (-32602)).
Proof.
  apply (run_no_required_no_param_error cpython (PDict null_arguments_request)
           null_arguments_request test_server ltac:(as_received) eq_refl
           [("name", PStr "failing_func"); ("arguments", PNone)]
           "failing_func" failing_info); try reflexivity.
  discriminate.
Defined.

Lemma run_non_mapping_arguments_witness :
  error_member "code" (fst (run cpython (PDict list_arguments_request) test_server))
    = Some (PInt (-32602))
  \/ error_member "code"
       (fst (run cpython (PDict list_arguments_request) test_server))
     = Some (PInt (-32603)).
Proof.
  apply (run_non_mapping_arguments cpython (PDict list_arguments_request)
           list_arguments_request test_server ltac:(as_received) eq_refl
           [("name", PStr "add"); ("arguments", PList [PStr "x"; PStr "y"])]
           "add" add_info (PList [PStr "x"; PStr "y"])); try reflexivity.
  - discriminate.
  - discriminate.
Defined.

Lemma register_new_appends_witness :
  let st' := register_tool "total" replacement test_server in
  list_tools st' = ["add"; "failing_func"; "probe"; "parse_config"; "total"]
  /\ tools_list st' = (tools_list test_server ++ [tool_schema "total" replacement])%list
  /\ initialized st' = initialized test_server.
Proof.
  apply (register_new_appends "total" replacement test_server).
  simpl. intros [E|[E|[E|[E|[]]]]]; discriminate E.
Defined.

Lemma add_closed_form_witness :
  add cpython (test_meta "add" "Test function") add_func
    (new_server "Test Server" "1.0.0") =
  Ret (register_tool "add" add_info (new_server "Test Server" "1.0.0")).
Proof.
  apply (add_closed_form cpython (test_meta "add" "Test function") add_func
           (new_server "Test Server" "1.0.0")).
  - reflexivity.
  - repeat constructor; simpl; intuition discriminate.
Defined.

Lemma add_record_consistent_witness :
  exists info,
    assoc_get "add" (tools test_server) = Some info
    /\ (forall r, In r (required_params info) -> dict_has r (properties info) = true)
    /\ (forall p, In p (f_params add_func) ->
          exists ty text,
            dict_lookup (p_name p) (properties info) =
              Some (PDict [("type", PStr ty); ("description", PStr text)])
            /\ In ty schema_types
            /\ (f_doc add_func = None -> text = "Parameter " ++ p_name p)).
Proof.
  destruct (add_record_consistent cpython (test_meta "add" "Test function")
              add_func (new_server "Test Server" "1.0.0")
              (register_tool "add" add_info (new_server "Test Server" "1.0.0")))
    as [info [Hget H]].
  - reflexivity.
  - repeat constructor; simpl; intuition discriminate.
  - reflexivity.
  - exists info. split; [|exact H].
    cbn in Hget. injection Hget as <-. reflexivity.
Defined.

Lemma check_suffices_for_binding_witness :
  call_kw cpython add_func false [("y", PInt 25); ("x", PInt 10)] =
    f_body add_func false [("x", PInt 10); ("y", PInt 25)].
Proof.
  apply (check_suffices_for_binding cpython add_func false
           [("y", PInt 25); ("x", PInt 10)]).
  - reflexivity.
  - simpl. tauto.
  - reflexivity.
Defined.

Lemma var_positional_uncallable_witness :
  let request := call_request (PInt 1) "collect" [("items", PList [PInt 1])] in
  error_member "code" (fst (run cpython (PDict request) collecting_server))
    = Some (PInt (-32602))
  \/ error_member "code" (fst (run cpython (PDict request) collecting_server))
     = Some (PInt (-32603)).
Proof.
  intros request.
  apply (var_positional_uncallable cpython (PDict request) request
           [("name", PStr "collect"); ("arguments", PDict [("items", PList [PInt 1])])]
           [("items", PList [PInt 1])]
           (test_meta "collect" "Test function")
           [("items", PDict [("type", PStr "string");
                             ("description", PStr "Parameter items")])]
           collect
           {| p_name := "items"; p_kind := VAR_POSITIONAL;
              p_default := None; p_annotation := AnnEmpty |}
           collecting_server); try reflexivity.
  - as_received.
  - discriminate.
  - simpl. now left.
  - repeat constructor; simpl; tauto.
Defined.

Lemma text_with_int_is_integer_witness :
  _infer_param_type_from_annotation cpython (AnnStr "List[INT]") = Ret "integer".
Proof.
  apply (text_with_int_is_integer cpython "List[" "INT" "]"). reflexivity.
Defined.

Lemma capital_name_needs_prefix_line_witness :
  (forall l, In l ["Look up a user."; "param userId: the identifier"] ->
     line_mentions "userId" (strip l) = false)
  /\ ((forall l, In l ["Look up a user."; "param userId: the identifier"] ->
         line_names "userId" (strip l) = false) ->
      scan_doc "userId" "Parameter userId"
        ["Look up a user."; "param userId: the identifier"] = "Parameter userId").
Proof.
  apply (capital_name_needs_prefix_line "userId" "Parameter userId"
           ["Look up a user."; "param userId: the identifier"]).
  - reflexivity.
  - intros l [<-|[<-|[]]]; reflexivity.
Defined.

Lemma description_from_named_line_witness :
  scan_doc "y" "Parameter y"
    ["Add two numbers."; ""; "    x: First number"; "    y: Second number "; ""]
  = "Second number".
Proof.
  apply (description_from_named_line "y" "Parameter y" " Second number"
           "    y: Second number "
           ["Add two numbers."; ""; "    x: First number"] [""]).
  - reflexivity.
  - intros l [<-|[<-|[<-|[]]]]; reflexivity.
  - reflexivity.
  - intros l [<-|[<-|[<-|[]]]]; split; reflexivity.
  - reflexivity.
Defined.

Lemma servers_share_logger_witness :
  let r1 := init_logging "My Server" INFO true [] in
  let r2 := init_logging "My_Server" INFO false (snd r1) in
  logger_name (fst r1) = logger_name (fst r2)
  /\ enable_logging (fst r1) = true
  /\ level (getLogger (logger_name (fst r1)) (snd r1)) = INFO
  /\ level (getLogger (logger_name (fst r1)) (snd r2)) = (CRITICAL + 1)%Z
  /\ handlers (getLogger (logger_name (fst r1)) (snd r2))
     = handlers (getLogger (logger_name (fst r1)) (snd r1))
  /\ handlers (getLogger (logger_name (fst r1)) (snd r1)) <> [].
Proof.
  apply (servers_share_logger "My Server" "My_Server" INFO INFO []).
  reflexivity.
Defined.

Lemma lambda_gateway_event_witness :
  lambda_handler cpython cpython_adapter (PDict broken_event) test_server =
    (Ret (PDict
       [("statusCode", PInt 400);
        ("body",
         PStr (json_text
           (PDict [("jsonrpc", PStr "2.0");
                   ("error", PDict [("code", PInt (-32700));
                                    ("message", PStr "Parse error");
                                    ("data", PStr "Expecting value: line 1 column 1 (char 0)")]);
                   ("id", PNone)])))]), test_server)
  /\ lambda_handler cpython cpython_adapter (PDict gateway_event) test_server =
       (Ret (PDict [("statusCode", PInt 200);
                    ("headers", cors_headers);
                    ("body",
                     PStr (json_text
                       (fst (run cpython (PDict sample_request) test_server))))]),
        test_server).
Proof.
  split.
  - apply (lambda_gateway_event cpython cpython_adapter broken_event "not json"
             test_server); reflexivity.
  - apply (proj2 (lambda_gateway_event cpython cpython_adapter gateway_event
                    sample_request_text test_server eq_refl eq_refl)
             (PDict sample_request)); reflexivity.
Defined.

Lemma lambda_direct_invocation_witness :
  lambda_handler cpython cpython_adapter (PDict initialize_request) test_server =
    (Ret (_success_response (PStr "init") (capabilities test_server)),
     set_initialized test_server true).
Proof.
  apply (lambda_direct_invocation cpython cpython_adapter initialize_request
           test_server); reflexivity.
Defined.

(** ** The required-parameter check and the call *)




